(** * SolveBio Python client: the request pipeline of [solvebio/client.py]

    A shallow embedding of [SolveTokenAuth] and [SolveClient] and the
    properties of the request pipeline: credential precedence, option
    merging, URL resolution, body encoding and outcome classification.

    Python objects that the code mutates or passes by reference (the header
    dictionaries) live in an explicit heap; exceptions, log records and the
    calls made to [requests.request] are threaded through a state and error
    monad. *)

From Stdlib Require Import ZArith String Ascii DecimalString.
From stdpp Require Import base option gmap strings list fin_maps.

Local Open Scope Z_scope.
Local Open Scope string_scope.

(** ** Python values *)

Definition loc := positive.

(** The values that travel through [request]: keyword arguments and the
    entries of dictionaries.  Dictionaries are mutable objects, so a value
    only holds their address. *)
Inductive value :=
| VNone
| VBool (b : bool)
| VInt (z : Z)
| VStr (s : string)
| VDict (l : loc)
| VAuth (token : option string)   (* an instance of SolveTokenAuth *)
| VObject (cls : string).         (* an instance of any other class, e.g. a file handle *)

Global Instance value_eq_dec : EqDecision value.
Proof. solve_decision. Defined.

(** A Python exception raised by library code, as far as the client looks at
    it: [type(e).__name__], [str(e)] and
    [isinstance(e, requests.exceptions.RequestException)].  It ranges over
    instances of [Exception], the ones [except Exception] catches. *)
Record pyexc := PyExc {
  exc_type : string;
  exc_str : string;
  exc_is_request_exception : bool
}.

(** The decoded JSON document that [response.json()] hands back. *)
Unset Elimination Schemes.
Inductive json :=
| JNull
| JBool (b : bool)
| JNum (z : Z)
| JStr (s : string)
| JArr (items : list json)
| JObj (fields : list (string * json)).
Set Elimination Schemes.

(** [requests.Response]: the status code, the body, and what calling
    [.json()] on it does (it raises when the body is not JSON). *)
Record Response := mkResponse {
  status_code : Z;
  content : string;
  json_view : pyexc + json
}.

(** What [request] can raise.  [SolveError] is declared in [errors.py]; an
    instance is represented by the keyword arguments its constructor is
    called with ([None] when the argument is left out). *)
Inductive exn :=
| SolveError (message : option string) (response : option Response)
| PyError (e : pyexc).

Definition KeyError (key : string) : exn :=
  PyError (PyExc "KeyError" ("'" +:+ key +:+ "'") false).

Definition AttributeError (msg : string) : exn :=
  PyError (PyExc "AttributeError" msg false).

(** What [request] returns: the response object or the decoded body. *)
Inductive result :=
| RResponse (r : Response)
| RJson (j : json).

(** ** The world a call runs in *)

(** [solvebio.api_key] and [solvebio.api_host], the module-level settings. *)
Record ProcessConfig := mkConfig {
  api_key : option string;
  api_host : option string
}.

(** What a call of [credentials.get_credentials()] does: it raises, or it
    returns [None], or a tuple. *)
Inductive credentials_result :=
| CredsRaise (e : pyexc)
| CredsNone
| CredsTuple (items : list (option string)).

Inductive log_record :=
| LogDebug (msg : string)
| LogInfo (msg : string).

(** One invocation of [requests.request(method, url, **opts)]. *)
Record wire_call := mkWire {
  w_method : string;
  w_url : string;
  w_opts : gmap string value
}.

Record world := mkWorld {
  heap : gmap loc (gmap string value);
  solvebio : ProcessConfig;
  credentials : credentials_result;
  logs : list log_record;       (* oldest first *)
  wire : list wire_call         (* oldest first *)
}.

Definition set_heap (h : gmap loc (gmap string value)) (w : world) : world :=
  mkWorld h (solvebio w) (credentials w) (logs w) (wire w).

Definition add_log (r : log_record) (w : world) : world :=
  mkWorld (heap w) (solvebio w) (credentials w) (logs w ++ [r]) (wire w).

Definition add_wire (c : wire_call) (w : world) : world :=
  mkWorld (heap w) (solvebio w) (credentials w) (logs w) (wire w ++ [c]).

(** ** A state and exception monad *)

Inductive outcome (A : Type) :=
| Return (a : A)
| Raise (e : exn).
Arguments Return {A} a.
Arguments Raise {A} e.

Definition M (A : Type) : Type := world → outcome A * world.

Global Instance M_ret : MRet M := λ A a w, (Return a, w).

Global Instance M_bind : MBind M := λ A B f m w,
  match m w with
  | (Return a, w') => f a w'
  | (Raise e, w') => (Raise e, w')
  end.

Definition raise {A} (e : exn) : M A := λ w, (Raise e, w).
Definition get_world : M world := λ w, (Return w, w).
Definition modify (f : world → world) : M unit := λ w, (Return tt, f w).

(** [{...}] and [dict(d)]: a new dictionary object at an unused address. *)
Definition alloc (d : gmap string value) : M loc := λ w,
  let l := fresh (dom (heap w)) in
  (Return l, set_heap (<[l := d]> (heap w)) w).

Definition logger_debug (msg : string) : M unit := modify (add_log (LogDebug msg)).
Definition logger_info (msg : string) : M unit := modify (add_log (LogInfo msg)).

(** ** Python built-ins used by the client *)

(** Truth value of an optional string: [None] and [''] are false. *)
Definition str_truthy (o : option string) : bool :=
  match o with
  | Some s => negb (String.eqb s "")
  | None => false
  end.

(** [a or b] on optional strings. *)
Definition str_or (a b : option string) : option string :=
  if str_truthy a then a else b.

(** Truth value of a value; a dictionary is true when it is not empty. *)
Definition truthy (h : gmap loc (gmap string value)) (v : value) : bool :=
  match v with
  | VNone => false
  | VBool b => b
  | VInt z => negb (z =? 0)%Z
  | VStr s => negb (String.eqb s "")
  | VDict l => match h !! l with
               | Some d => negb (bool_decide (d = ∅))
               | None => true
               end
  | VAuth _ => true
  | VObject _ => true
  end.

Definition upper_ascii (c : ascii) : ascii :=
  let n := nat_of_ascii c in
  if ((97 <=? n) && (n <=? 122))%nat then ascii_of_nat (n - 32) else c.

(** [s.upper()] *)
Fixpoint upper (s : string) : string :=
  match s with
  | EmptyString => EmptyString
  | String c s' => String (upper_ascii c) (upper s')
  end.

(** [s.startswith(p)] *)
Definition startswith (s p : string) : bool := String.prefix p s.

(** ['%d' % z] *)
Definition format_d (z : Z) : string := NilZero.string_of_int (Z.to_int z).

(** [z in l] on integers *)
Definition int_in (z : Z) (l : list Z) : bool := existsb (Z.eqb z) l.

(** [sub] occurs in [s]. *)
Definition contains (s sub : string) : Prop :=
  ∃ pre post, s = pre +:+ sub +:+ post.

(** ** The client *)

(** [SolveTokenAuth]: an instance is its [token] attribute. *)
Module SolveTokenAuth.

(** [get_credentials()[1]], which raises when the lookup raises, when it
    returns [None] and when the tuple is too short. *)
Definition credentials_item_1 (c : credentials_result) : pyexc + option string :=
  match c with
  | CredsRaise e => inl e
  | CredsNone =>
      inl (PyExc "TypeError" "'NoneType' object has no attribute '__getitem__'" false)
  | CredsTuple items =>
      match items !! 1%nat with
      | Some t => inr t
      | None => inl (PyExc "IndexError" "tuple index out of range" false)
      end
  end.

Definition _get_api_key (w : world) : option string :=
  if str_truthy (api_key (solvebio w)) then api_key (solvebio w)
  else
    match credentials_item_1 (credentials w) with
    | inr t => t          (* try: return get_credentials()[1] *)
    | inl _ => None       (* except: pass;  return None *)
    end.

(** [__init__]: the token attribute of the new instance. *)
Definition __init__ (token : option string) (w : world) : option string :=
  str_or token (_get_api_key w).

(** [__call__]: [r] is the headers of the outgoing request. *)
Definition __call__ (token : option string) (r : gmap string string)
  : gmap string string :=
  if str_truthy token then <["Authorization" := "Token " +:+ default "" token]> r
  else r.

End SolveTokenAuth.

Record SolveClient := mkClient {
  _api_key : option string;
  _api_host : option string;
  _headers : loc
}.

Section Client.

(** The libraries the client calls. *)
Variable VERSION python_implementation python_version : string.
(** [SolveError.default_message] *)
Variable default_message : string.
(** [json.dumps]: the text, or the exception it raises. *)
Variable json_dumps : gmap loc (gmap string value) → value → pyexc + string.
Variable textwrap_fill : string → string.
Variable urljoin : string → string → string.
(** [requests.request(method, url, **opts)]: a response, or the exception
    it raises. *)
Variable requests_request :
  world → string → string → gmap string value → pyexc + Response.

Definition _handle_api_error {A} (response : Response) : M A :=
  if int_in (status_code response) [400; 401; 403; 404] then
    raise (SolveError None (Some response))
  else
    _ ← logger_info ("API Error: " +:+ format_d (status_code response));
    raise (SolveError None (Some response)).

Definition _handle_request_error {A} (e : pyexc) : M A :=
  let '(msg, err) :=
    if exc_is_request_exception e then
      (default_message, exc_type e +:+ ": " +:+ exc_str e)
    else
      ("Unexpected error communicating with SolveBio. " +:+
       "It looks like there's probably a configuration " +:+
       "issue locally. If this problem persists, let us " +:+
       "know at contact@solvebio.com.",
       let err := "A " +:+ exc_type e +:+ " was raised" in
       if negb (String.eqb (exc_str e) "") then
         err +:+ " with error message " +:+ exc_str e
       else
         err +:+ " with no error message") in
  let msg := textwrap_fill msg +:+ "

(Network error: " +:+ err +:+ ")" in
  raise (SolveError (Some msg) None).

Definition SolveClient__init__ (api_key api_host : option string) : M SolveClient :=
  h ← alloc {[ "Content-Type" := VStr "application/json";
               "Accept" := VStr "application/json";
               "Accept-Encoding" := VStr "gzip,deflate";
               "User-Agent" := VStr ("SolveBio Python Client " +:+ VERSION +:+
                                     " [Python " +:+ python_implementation +:+
                                     "/" +:+ python_version +:+ "]") ]};
  mret (mkClient api_key api_host h).

(** [dict(d)] for a dictionary object [d] *)
Definition dict_copy (l : loc) : M loc :=
  w ← get_world;
  match heap w !! l with
  | Some d => alloc d
  | None => raise (PyError (PyExc "TypeError" "object is not iterable" false))
  end.

(** [d.pop(k)] on the local dictionary [d] *)
Definition dict_pop (k : string) (d : gmap string value)
  : M (value * gmap string value) :=
  match d !! k with
  | Some v => mret (v, delete k d)
  | None => raise (KeyError k)
  end.

(** [d[k]] on the local dictionary [d] *)
Definition dict_get (k : string) (d : gmap string value) : M value :=
  match d !! k with
  | Some v => mret v
  | None => raise (KeyError k)
  end.

(** [v.pop(k, None)] where [v] should be a dictionary object *)
Definition obj_pop_default (v : value) (k : string) : M unit :=
  match v with
  | VDict l =>
      modify (λ w, set_heap (alter (delete k) l (heap w)) w)
  | _ => raise (AttributeError "object has no attribute 'pop'")
  end.

(** Lines 168 to 177 of [request]: the default options.  The entries are
    evaluated in the order they are written. *)
Definition default_opts (self : SolveClient) : M (gmap string value) :=
  w ← get_world;
  let auth := SolveTokenAuth.__init__ None w in
  data ← alloc ∅;
  headers ← dict_copy (_headers self);
  params ← alloc ∅;
  mret ({[ "allow_redirects" := VBool true;
           "auth" := VAuth auth;
           "data" := VDict data;
           "files" := VNone;
           "headers" := VDict headers;
           "params" := VDict params;
           "timeout" := VInt 80;
           "verify" := VBool true ]} : gmap string value).

(** Lines 189 to 193 of [request]: the body and its content type. *)
Definition encode_body (opts : gmap string value) : M (gmap string value) :=
  files ← dict_get "files" opts;
  w ← get_world;
  if truthy (heap w) files then
    (* Don't use application/json for file uploads or GET requests *)
    h ← dict_get "headers" opts;
    _ ← obj_pop_default h "Content-Type";
    mret opts
  else
    d ← dict_get "data" opts;
    w ← get_world;
    match json_dumps (heap w) d with
    | inr s => mret (<["data" := VStr s]> opts)
    | inl e => raise (PyError e)
    end.

(** Lines 196 to 202 of [request]: expand URL with API host. *)
Definition resolve_url (self : SolveClient) (url : string) : M string :=
  w ← get_world;
  let api_host := str_or (_api_host self) (api_host (solvebio w)) in
  if negb (str_truthy api_host) then
    raise (SolveError (Some "No SolveBio API host is set") None)
  else if negb (startswith url (default "" api_host)) then
    mret (urljoin (default "" api_host) url)
  else
    mret url.

(** Lines 218 to 225 of [request]: what is made of a response. *)
Definition request_result (raw : value) (response : Response) : M result :=
  _ ← (if negb ((200 <=? status_code response)%Z && (status_code response <? 400)%Z)
       then _handle_api_error response
       else mret tt);
  w ← get_world;
  (* 204 is used on deletion. There is no JSON here. *)
  if truthy (heap w) raw || int_in (status_code response) [204; 301; 302] then
    mret (RResponse response)
  else
    match json_view response with
    | inr j => mret (RJson j)
    | inl e => raise (PyError e)
    end.

Definition request (self : SolveClient) (method url : string)
    (kwargs : gmap string value) : M result :=
  opts ← default_opts self;
  (* if 'raw' in kwargs: raw = kwargs['raw']; opts.pop('raw') *)
  '(raw, opts) ← match kwargs !! "raw" with
                 | Some v => '(_, opts') ← dict_pop "raw" opts; mret (v, opts')
                 | None => mret (VBool false, opts)
                 end;
  (* opts.update(kwargs) *)
  let opts := kwargs ∪ opts in
  let method := upper method in
  opts ← encode_body opts;
  url ← resolve_url self url;
  _ ← logger_debug ("API " +:+ method +:+ " Request: " +:+ url);
  (* try: response = requests.request(method, url, **opts) *)
  w ← get_world;
  _ ← modify (add_wire (mkWire method url opts));
  response ← match requests_request w method url opts with
             | inr r => mret r
             | inl e => _handle_request_error e    (* except Exception as e *)
             end;
  request_result raw response.

(** Binding the arguments of a call [f(..., **kwargs)]: a keyword that names
    one of the parameters already given by position is refused with
    [TypeError], before the body of [f] runs. *)
Definition bind_args (f : string) (names : list string)
    (kwargs : gmap string value) : M unit :=
  match List.find (λ n, bool_decide (is_Some (kwargs !! n))) names with
  | Some n =>
      raise (PyError (PyExc "TypeError"
               (f +:+ "() got multiple values for keyword argument '" +:+ n +:+ "'")
               false))
  | None => mret tt
  end.

Definition get (self : SolveClient) (url : string) (params : value)
    (kwargs : gmap string value) : M result :=
  _ ← bind_args "get" ["self"; "url"; "params"] kwargs;
  (* kwargs['params'] = params *)
  let kwargs := <["params" := params]> kwargs in
  _ ← bind_args "request" ["self"; "method"; "url"] kwargs;
  request self "GET" url kwargs.

Definition post (self : SolveClient) (url : string) (data : value)
    (kwargs : gmap string value) : M result :=
  _ ← bind_args "post" ["self"; "url"; "data"] kwargs;
  (* kwargs['data'] = data *)
  let kwargs := <["data" := data]> kwargs in
  _ ← bind_args "request" ["self"; "method"; "url"] kwargs;
  request self "POST" url kwargs.

End Client.

(** ** Test doubles

    Stand-ins for the libraries, used to run the client on concrete calls.
    Each agrees with the library it replaces on the inputs it is run on
    below. *)
Module Double.

Definition quote (s : string) : string :=
  String "034"%char (s +:+ String "034"%char "").

(** [json.dumps] for values without characters that need escaping; an
    object of a class json does not know raises [TypeError]. *)
Fixpoint json_encode (fuel : nat) (h : gmap loc (gmap string value)) (v : value)
  : pyexc + string :=
  match v with
  | VNone => inr "null"
  | VBool true => inr "true"
  | VBool false => inr "false"
  | VInt z => inr (format_d z)
  | VStr s => inr (quote s)
  | VDict l =>
      match fuel, h !! l with
      | S n, Some d =>
          let field (acc : pyexc + list string) (kx : string * value) :=
            match acc, json_encode n h kx.2 with
            | inr fs, inr s => inr (fs ++ [quote kx.1 +:+ ": " +:+ s])%list
            | inl e, _ => inl e
            | _, inl e => inl e
            end in
          match foldl field (inr []) (map_to_list d) with
          | inr fs => inr ("{" +:+ String.concat ", " fs +:+ "}")
          | inl e => inl e
          end
      | _, _ => inl (PyExc "ValueError" "Circular reference detected" false)
      end
  | VAuth _ =>
      inl (PyExc "TypeError" "<SolveTokenAuth None> is not JSON serializable" false)
  | VObject cls =>
      inl (PyExc "TypeError" ("<" +:+ cls +:+ " object> is not JSON serializable") false)
  end.

Definition json_dumps := json_encode 16.

(** [textwrap.fill] leaves a short line as it is. *)
Definition textwrap_fill (s : string) : string := s.

(** [urljoin] of a base without path and an absolute path. *)
Definition urljoin (base url : string) : string := base +:+ url.

(** A transport that answers every call with the given response. *)
Definition respond (r : Response)
  : world → string → string → gmap string value → pyexc + Response :=
  λ _ _ _ _, inr r.

(** A transport that fails every call with the given exception. *)
Definition fail (e : pyexc)
  : world → string → string → gmap string value → pyexc + Response :=
  λ _ _ _ _, inl e.

Definition default_message : string :=
  "Unexpected error communicating with SolveBio.".

Definition request :=
  request default_message json_dumps textwrap_fill urljoin.

(** A world holding one client made by [SolveClient(api_key, api_host)]. *)
Definition get :=
  get default_message json_dumps textwrap_fill urljoin.

Definition post :=
  post default_message json_dumps textwrap_fill urljoin.

Definition boot (cfg : ProcessConfig) (creds : credentials_result)
    (key host : option string) : outcome SolveClient * world :=
  SolveClient__init__ "1.0" "CPython" "2.7" key host (mkWorld ∅ cfg creds [] []).

End Double.

(** ** Notions used to state the properties *)

(** The dictionary literal of lines 168 to 177. *)
Definition opts_literal (auth : option string) (data headers params : loc)
  : gmap string value :=
  {[ "allow_redirects" := VBool true;
     "auth" := VAuth auth;
     "data" := VDict data;
     "files" := VNone;
     "headers" := VDict headers;
     "params" := VDict params;
     "timeout" := VInt 80;
     "verify" := VBool true ]}.

(** The three dictionaries the literal allocates, and the heap after it:
    [d] is the content of the client's header dictionary. *)
Definition data_loc (w : world) : loc := fresh (dom (heap w)).
Definition headers_loc (w : world) : loc :=
  fresh (dom (<[data_loc w := ∅]> (heap w))).
Definition params_loc (w : world) (d : gmap string value) : loc :=
  fresh (dom (<[headers_loc w := d]> (<[data_loc w := ∅]> (heap w)))).
Definition opts_heap (w : world) (d : gmap string value)
  : gmap loc (gmap string value) :=
  <[params_loc w d := ∅]> (<[headers_loc w := d]> (<[data_loc w := ∅]> (heap w))).
Definition opts_world (w : world) (d : gmap string value) : world :=
  set_heap (opts_heap w d) w.
Definition opts_default (w : world) (d : gmap string value) : gmap string value :=
  opts_literal (SolveTokenAuth.__init__ None w)
    (data_loc w) (headers_loc w) (params_loc w d).

(** The options after [opts.update(kwargs)], as the code reads them.  They
    are examined in [opts_heap w d], the heap that holds the default
    options. *)
Definition files_of (kwargs : gmap string value) : value :=
  default VNone (kwargs !! "files").
Definition data_of (w : world) (kwargs : gmap string value) : value :=
  default (VDict (data_loc w)) (kwargs !! "data").
Definition headers_of (w : world) (kwargs : gmap string value) : value :=
  default (VDict (headers_loc w)) (kwargs !! "headers").

(** The API host a call of the client resolves its URL against. *)
Definition host_of (self : SolveClient) (w : world) : option string :=
  str_or (_api_host self) (api_host (solvebio w)).

(** The body of a call can be encoded: with a file payload the headers must
    be a dictionary (its [pop] is called), without one [json.dumps] must
    accept the data. *)
Definition encodable
    (json_dumps : gmap loc (gmap string value) → value → pyexc + string)
    (w : world) (d : gmap string value) (kwargs : gmap string value) : Prop :=
  if truthy (opts_heap w d) (files_of kwargs) then
    ∃ l, headers_of w kwargs = VDict l
  else
    ∃ s, json_dumps (opts_heap w d) (data_of w kwargs) = inr s.

(** A status code of the range [200, 400). *)
Definition in_range (status : Z) : bool := (200 <=? status)%Z && (status <? 400)%Z.

(** What happens once the options are encoded and the URL is resolved: the
    debug line, the call of the transport, and what is made of its answer. *)
Definition dispatched (default_message : string)
    (textwrap_fill : string → string)
    (requests_request :
       world → string → string → gmap string value → pyexc + Response)
    (method url : string) (opts : gmap string value)
    (w1 : world) : outcome result * world :=
  let wl := add_log (LogDebug ("API " +:+ method +:+ " Request: " +:+ url)) w1 in
  let ww := add_wire (mkWire method url opts) wl in
  match requests_request wl method url opts with
  | inr r => request_result (VBool false) r ww
  | inl e => _handle_request_error default_message textwrap_fill e ww
  end.

(** The three kinds of failure the client reports, all of class
    [SolveError]. *)
Definition configuration_error : exn :=
  SolveError (Some "No SolveBio API host is set") None.
Definition api_error (r : Response) : exn := SolveError None (Some r).
Definition transport_error (msg : string) : exn := SolveError (Some msg) None.

(** ** Concrete calls

    Worlds and calls on which the properties below are run, with the test
    doubles in place of the libraries. *)
Module Scenario.
Import Double.

(** The client that [boot] makes, and its header dictionary. *)
Definition client : SolveClient := mkClient None None 1%positive.

Definition default_headers : gmap string value :=
  {[ "Content-Type" := VStr "application/json";
     "Accept" := VStr "application/json";
     "Accept-Encoding" := VStr "gzip,deflate";
     "User-Agent" := VStr "SolveBio Python Client 1.0 [Python CPython/2.7]" ]}.

(** A process with [solvebio.api_host] set, and one with no host at all. *)
Definition w_host : world :=
  (boot (mkConfig None (Some "https://api.example.com")) CredsNone None None).2.
Definition w_nohost : world :=
  (boot (mkConfig None None) CredsNone None None).2.

(** A process in which the caller holds a header dictionary of its own. *)
Definition caller_headers : loc := 2%positive.
Definition w_caller : world :=
  set_heap (<[caller_headers := {[ "Content-Type" := VStr "text/csv";
                                   "X-Tag" := VStr "a" ]}]> (heap w_host)) w_host.

Definition ok : Response := mkResponse 200 "{}" (inr (JObj [])).
Definition no_content : Response :=
  mkResponse 204 "" (inl (PyExc "ValueError" "No JSON object could be decoded" false)).
Definition server_error : Response :=
  mkResponse 500 "oops" (inl (PyExc "ValueError" "No JSON object could be decoded" false)).
Definition refused : pyexc := PyExc "ConnectionError" "Connection refused" true.

(** The last call the transport received in a run. *)
Definition sent (x : outcome result * world) : wire_call :=
  default (mkWire "" "" ∅) (last (wire x.2)).

Definition run_get := request (respond ok) client "get" "/v1/x" ∅ w_host.
Definition run_absolute :=
  request (respond ok) client "get" "https://api.example.com/v1/x" ∅ w_host.
Definition run_raw :=
  request (respond ok) client "get" "/v1/x" {[ "raw" := VBool true ]} w_host.
Definition run_delete := request (respond no_content) client "delete" "/v1/x" ∅ w_host.
Definition run_500 := request (respond server_error) client "get" "/v1/x" ∅ w_host.
Definition run_refused := request (fail refused) client "get" "/v1/x" ∅ w_host.
Definition run_upload :=
  request (respond ok) client "post" "/v1/upload"
    {[ "files" := VObject "file" ]} w_host.
Definition run_nohost := request (respond ok) client "get" "/v1/x" ∅ w_nohost.
Definition run_nohost_set :=
  request (respond ok) client "post" "/v1/x" {[ "data" := VObject "set" ]} w_nohost.

(** Two calls in a row, the caller emptying the first call's header
    dictionary in between. *)
Definition w_between : world :=
  set_heap (<[headers_loc w_host := ∅]> (heap run_upload.2)) run_upload.2.
Definition run_second := request (respond ok) client "get" "/v1/x" ∅ w_between.

(** Two calls in a row that pass the caller's dictionary, the first one an
    upload; and the second call on its own. *)
Definition run_caller_upload :=
  request (respond ok) client "post" "/v1/upload"
    {[ "headers" := VDict caller_headers; "files" := VObject "file" ]} w_caller.
Definition run_caller_second :=
  request (respond ok) client "get" "/v1/x"
    {[ "headers" := VDict caller_headers ]} run_caller_upload.2.
Definition run_caller_alone :=
  request (respond ok) client "get" "/v1/x"
    {[ "headers" := VDict caller_headers ]} w_caller.

(** A page that is not JSON, answered with status 200. *)
Definition html : Response :=
  mkResponse 200 "<html></html>"
    (inl (PyExc "ValueError" "No JSON object could be decoded" false)).
Definition run_html := request (respond html) client "get" "/v1/x" ∅ w_host.

Definition run_get_params :=
  get (respond ok) client "/v1/x" (VStr "limit=1") ∅ w_host.
Definition run_post :=
  post (respond ok) client "/v1/x" (VStr "hello") ∅ w_host.

Definition caller_dict : gmap string value :=
  {[ "Content-Type" := VStr "text/csv"; "X-Tag" := VStr "a" ]}.

End Scenario.

(** * Properties *)

(** ** Running the monad *)

Lemma bind_run {A B} (m : M A) (f : A → M B) (w : world) :
  (m ≫= f) w =
  match m w with
  | (Return a, w') => f a w'
  | (Raise e, w') => (Raise e, w')
  end.
Proof. reflexivity. Qed.

Lemma fresh_heap_None (h : gmap loc (gmap string value)) :
  h !! fresh (dom h) = None.
Proof. apply not_elem_of_dom, is_fresh. Qed.

Lemma alloc_run (d : gmap string value) (w : world) :
  alloc d w = (Return (fresh (dom (heap w))),
               set_heap (<[fresh (dom (heap w)) := d]> (heap w)) w).
Proof. reflexivity. Qed.

Lemma data_loc_fresh w : heap w !! data_loc w = None.
Proof. apply fresh_heap_None. Qed.

Lemma headers_loc_fresh w : heap w !! headers_loc w = None.
Proof.
  pose proof (fresh_heap_None (<[data_loc w := ∅]> (heap w))) as H.
  apply lookup_insert_None in H. tauto.
Qed.

Lemma headers_loc_data_loc w : headers_loc w ≠ data_loc w.
Proof.
  pose proof (fresh_heap_None (<[data_loc w := ∅]> (heap w))) as H.
  apply lookup_insert_None in H. intros E. destruct H as [_ H]. by apply H.
Qed.

Lemma params_loc_fresh w d :
  heap w !! params_loc w d = None ∧ params_loc w d ≠ headers_loc w
  ∧ params_loc w d ≠ data_loc w.
Proof.
  pose proof (fresh_heap_None
    (<[headers_loc w := d]> (<[data_loc w := ∅]> (heap w)))) as H.
  apply lookup_insert_None in H. destruct H as [H H1].
  apply lookup_insert_None in H. destruct H as [H H2].
  repeat split; [done | by intros E; apply H1 | by intros E; apply H2].
Qed.

Lemma opts_heap_headers w d : opts_heap w d !! headers_loc w = Some d.
Proof.
  unfold opts_heap. destruct (params_loc_fresh w d) as (_ & H & _).
  rewrite lookup_insert_ne by done. apply lookup_insert_eq.
Qed.

Lemma opts_heap_data w d : opts_heap w d !! data_loc w = Some ∅.
Proof.
  unfold opts_heap. destruct (params_loc_fresh w d) as (_ & _ & H).
  rewrite lookup_insert_ne by done.
  rewrite lookup_insert_ne by (apply headers_loc_data_loc).
  apply lookup_insert_eq.
Qed.

(** Objects that exist before the call are not touched by building the
    options. *)
Lemma opts_heap_old w d l x : heap w !! l = Some x → opts_heap w d !! l = Some x.
Proof.
  intros H. unfold opts_heap.
  destruct (params_loc_fresh w d) as (Hp & _ & _).
  rewrite !lookup_insert_ne; [done | | | ]; intros E; subst l.
  - by rewrite data_loc_fresh in H.
  - by rewrite headers_loc_fresh in H.
  - by rewrite Hp in H.
Qed.

Lemma default_opts_run self w d :
  heap w !! _headers self = Some d →
  default_opts self w = (Return (opts_default w d), opts_world w d).
Proof.
  intros H. unfold default_opts. rewrite bind_run. cbn [get_world].
  rewrite bind_run, alloc_run. unfold dict_copy.
  rewrite !bind_run. cbn [get_world set_heap heap].
  rewrite lookup_insert_ne
    by (intros E; rewrite <- E in H; by rewrite fresh_heap_None in H).
  rewrite H, alloc_run, bind_run, alloc_run. reflexivity.
Qed.

Lemma opts_default_lookup w d :
  opts_default w d !! "raw" = None
  ∧ opts_default w d !! "files" = Some VNone
  ∧ opts_default w d !! "data" = Some (VDict (data_loc w))
  ∧ opts_default w d !! "headers" = Some (VDict (headers_loc w)).
Proof. repeat split. Qed.

Lemma merged_lookup (kwargs opts : gmap string value) (k : string) :
  (kwargs ∪ opts) !! k =
  match kwargs !! k with
  | Some v => Some v
  | None => opts !! k
  end.
Proof.
  rewrite lookup_union. destruct (kwargs !! k), (opts !! k); reflexivity.
Qed.

Lemma merged_files kwargs w d :
  (kwargs ∪ opts_default w d) !! "files" = Some (files_of kwargs).
Proof. rewrite merged_lookup. unfold files_of. by destruct (kwargs !! "files"). Qed.

Lemma merged_data kwargs w d :
  (kwargs ∪ opts_default w d) !! "data" = Some (data_of w kwargs).
Proof. rewrite merged_lookup. unfold data_of. by destruct (kwargs !! "data"). Qed.

Lemma merged_headers kwargs w d :
  (kwargs ∪ opts_default w d) !! "headers" = Some (headers_of w kwargs).
Proof.
  rewrite merged_lookup. unfold headers_of. by destruct (kwargs !! "headers").
Qed.

(** ** Strings *)

Lemma append_assoc (a b c : string) : (a +:+ b) +:+ c = a +:+ (b +:+ c).
Proof.
  induction a as [|x a IH]; [done|].
  change (String x ((a +:+ b) +:+ c) = String x (a +:+ (b +:+ c))). by f_equal.
Qed.

Lemma contains_here (pre sub post : string) : contains (pre +:+ sub +:+ post) sub.
Proof. by exists pre, post. Qed.

Lemma contains_append_l (a s sub : string) : contains s sub → contains (a +:+ s) sub.
Proof.
  intros (pre & post & ->). exists (a +:+ pre), post. by rewrite append_assoc.
Qed.

Lemma contains_append_r (s b sub : string) : contains s sub → contains (s +:+ b) sub.
Proof.
  intros (pre & post & ->). exists pre, (post +:+ b).
  by rewrite !append_assoc.
Qed.

Lemma contains_refl (s : string) : contains s s.
Proof.
  exists "", "". change (s = s +:+ "").
  induction s as [|x s IH]; [done|].
  change (String x s = String x (s +:+ "")). by f_equal.
Qed.

Lemma contains_empty (s : string) : contains s "".
Proof. by exists "", s. Qed.

Create HintDb contains.
#[local] Hint Resolve contains_here contains_append_l contains_append_r contains_refl
  : contains.

(** ** The phases of [request], one by one *)

Section Phases.

Variable default_message : string.
Variable json_dumps : gmap loc (gmap string value) → value → pyexc + string.
Variable textwrap_fill : string → string.
Variable urljoin : string → string → string.
Variable requests_request :
  world → string → string → gmap string value → pyexc + Response.

Local Abbreviation req :=
  (request default_message json_dumps textwrap_fill urljoin requests_request).
Local Abbreviation dispatched :=
  (dispatched default_message textwrap_fill requests_request).

(** What [encode_body] does to the merged options. *)
Lemma encode_body_run kwargs w d :
  encode_body json_dumps (kwargs ∪ opts_default w d) (opts_world w d) =
  if truthy (opts_heap w d) (files_of kwargs) then
    match headers_of w kwargs with
    | VDict l =>
        (Return (kwargs ∪ opts_default w d),
         set_heap (alter (delete "Content-Type") l (opts_heap w d)) (opts_world w d))
    | _ => (Raise (AttributeError "object has no attribute 'pop'"), opts_world w d)
    end
  else
    match json_dumps (opts_heap w d) (data_of w kwargs) with
    | inr s => (Return (<["data" := VStr s]> (kwargs ∪ opts_default w d)),
                opts_world w d)
    | inl e => (Raise (PyError e), opts_world w d)
    end.
Proof.
  unfold encode_body, dict_get. rewrite bind_run, merged_files.
  cbn [mret M_ret]. rewrite bind_run. cbn [get_world opts_world set_heap heap].
  destruct (truthy (opts_heap w d) (files_of kwargs)).
  - rewrite bind_run, merged_headers. cbn [mret M_ret].
    rewrite bind_run. unfold obj_pop_default.
    destruct (headers_of w kwargs); reflexivity.
  - rewrite bind_run, merged_data. cbn [mret M_ret].
    rewrite bind_run. cbn [get_world heap].
    destruct (json_dumps _ _); reflexivity.
Qed.

Lemma encode_body_world kwargs w d o w1 :
  encode_body json_dumps (kwargs ∪ opts_default w d) (opts_world w d) = (o, w1) →
  wire w1 = wire w ∧ logs w1 = logs w ∧ solvebio w1 = solvebio w.
Proof.
  rewrite encode_body_run.
  destruct (truthy _ _); [destruct (headers_of w kwargs) | destruct (json_dumps _ _)];
    intros [= <- <-]; done.
Qed.

Lemma resolve_url_run self url w :
  resolve_url urljoin self url w =
  if str_truthy (host_of self w) then
    (Return (if startswith url (default "" (host_of self w)) then url
             else urljoin (default "" (host_of self w)) url), w)
  else (Raise configuration_error, w).
Proof.
  unfold resolve_url, host_of. rewrite bind_run. cbn [get_world].
  destruct (str_truthy _); [|reflexivity]. cbn [negb].
  destruct (startswith _ _); reflexivity.
Qed.


(** [_handle_request_error] raises whatever follows it. *)
Lemma handle_request_error_bind {A B} (e : pyexc) (f : A → M B) (w : world) :
  _handle_request_error default_message textwrap_fill e w =
  (_handle_request_error default_message textwrap_fill e ≫= f) w.
Proof.
  unfold _handle_request_error.
  destruct (exc_is_request_exception e); reflexivity.
Qed.

(** ** The shape of every run of [request] *)

Lemma request_raw self method url kwargs v w d :
  heap w !! _headers self = Some d →
  kwargs !! "raw" = Some v →
  req self method url kwargs w = (Raise (KeyError "raw"), opts_world w d).
Proof.
  intros Hd Hraw. unfold request.
  rewrite bind_run, (default_opts_run _ _ _ Hd), Hraw. reflexivity.
Qed.

Lemma request_no_raw self method url kwargs w d :
  heap w !! _headers self = Some d →
  kwargs !! "raw" = None →
  req self method url kwargs w =
  match encode_body json_dumps (kwargs ∪ opts_default w d) (opts_world w d) with
  | (Return opts1, w1) =>
      if str_truthy (host_of self w1) then
        dispatched (upper method)
          (if startswith url (default "" (host_of self w1)) then url
           else urljoin (default "" (host_of self w1)) url) opts1 w1
      else (Raise configuration_error, w1)
  | (Raise e, w1) => (Raise e, w1)
  end.
Proof.
  intros Hd Hraw. unfold request.
  rewrite bind_run, (default_opts_run _ _ _ Hd), Hraw.
  rewrite bind_run. cbn [mret M_ret]. rewrite bind_run.
  destruct (encode_body _ _ _) as [[opts1|e] w1]; [|reflexivity].
  rewrite bind_run, resolve_url_run.
  destruct (str_truthy (host_of self w1)); [|reflexivity].
  do 3 (rewrite bind_run; cbn [logger_debug modify get_world]).
  rewrite bind_run. unfold dispatched.
  destruct (requests_request _ _ _ _) as [e|r]; [|reflexivity].
  symmetry. apply handle_request_error_bind.
Qed.


(** ** The outcome of a call that reached the transport *)

Lemma request_result_run raw r w :
  request_result raw r w =
  if in_range (status_code r) then
    if truthy (heap w) raw || int_in (status_code r) [204; 301; 302] then
      (Return (RResponse r), w)
    else
      match json_view r with
      | inr j => (Return (RJson j), w)
      | inl e => (Raise (PyError e), w)
      end
  else
    (Raise (api_error r),
     if int_in (status_code r) [400; 401; 403; 404] then w
     else add_log (LogInfo ("API Error: " +:+ format_d (status_code r))) w).
Proof.
  unfold request_result, in_range. rewrite bind_run.
  destruct ((200 <=? status_code r)%Z && (status_code r <? 400)%Z); cbn [negb].
  - cbn [mret M_ret]. rewrite bind_run. cbn [get_world].
    destruct (truthy (heap w) raw || int_in (status_code r) [204; 301; 302]);
      [reflexivity|]. destruct (json_view r); reflexivity.
  - unfold _handle_api_error.
    destruct (int_in (status_code r) [400; 401; 403; 404]); reflexivity.
Qed.

Lemma handle_request_error_run {A} (e : pyexc) (w : world) :
  ∃ msg, @_handle_request_error default_message textwrap_fill A e w
         = (Raise (transport_error msg), w)
         ∧ contains msg (exc_type e) ∧ contains msg (exc_str e).
Proof.
  unfold _handle_request_error.
  destruct (exc_is_request_exception e).
  - eexists. split; [reflexivity|]. split; auto 12 with contains.
  - destruct (String.eqb (exc_str e) "") eqn:E; cbn [negb].
    + apply String.eqb_eq in E. rewrite E.
      eexists. split; [reflexivity|].
      split; [auto 12 with contains | apply contains_empty].
    + eexists. split; [reflexivity|]. split; auto 12 with contains.
Qed.

Lemma dispatched_world method url opts w1 out w' :
  dispatched method url opts w1 = (out, w') →
  wire w' = (wire w1 ++ [mkWire method url opts])%list ∧ heap w' = heap w1.
Proof.
  unfold dispatched. destruct (requests_request _ _ _ _) as [e|r].
  - destruct (handle_request_error_run (A := result) e
      (add_wire (mkWire method url opts)
         (add_log (LogDebug ("API " +:+ method +:+ " Request: " +:+ url)) w1)))
      as (msg & -> & _).
    by intros [= <- <-].
  - rewrite request_result_run.
    repeat match goal with |- context [if ?b then _ else _] => destruct b end;
      try destruct (json_view r); by intros [= <- <-].
Qed.

(** A call that reached the transport did not pass [raw], got its body
    encoded and its host resolved. *)
Lemma request_dispatch_inv self method url kwargs w d out w' c :
  heap w !! _headers self = Some d →
  req self method url kwargs w = (out, w') →
  wire w' = (wire w ++ [c])%list →
  kwargs !! "raw" = None ∧
  ∃ opts1 w1,
    encode_body json_dumps (kwargs ∪ opts_default w d) (opts_world w d)
      = (Return opts1, w1)
    ∧ str_truthy (host_of self w1) = true
    ∧ c = mkWire (upper method)
            (if startswith url (default "" (host_of self w1)) then url
             else urljoin (default "" (host_of self w1)) url) opts1
    ∧ dispatched (w_method c) (w_url c) (w_opts c) w1 = (out, w').
Proof.
  intros Hd Hrun Hwire.
  assert (Hstop : wire w' ≠ wire w).
  { rewrite Hwire. intros E. apply (f_equal length) in E.
    rewrite length_app in E. simpl in E. lia. }
  destruct (kwargs !! "raw") as [v|] eqn:Hraw.
  { rewrite (request_raw _ _ _ _ _ _ _ Hd Hraw) in Hrun.
    injection Hrun as _ <-. done. }
  split; [done|].
  rewrite (request_no_raw _ _ _ _ _ _ Hd Hraw) in Hrun.
  destruct (encode_body _ _ _) as [[opts1|e] w1] eqn:Henc.
  2:{ injection Hrun as _ <-. by apply encode_body_world in Henc as (? & _). }
  pose proof (encode_body_world _ _ _ _ _ Henc) as (Hw1 & _).
  exists opts1, w1. split; [done|].
  destruct (str_truthy (host_of self w1)).
  2:{ injection Hrun as _ <-. done. }
  split; [done|].
  pose proof (dispatched_world _ _ _ _ _ _ Hrun) as (Hw & _).
  rewrite Hw1, Hwire in Hw. apply app_inj_tail in Hw as (_ & ->).
  done.
Qed.

Lemma host_of_heap self w h : host_of self (set_heap h w) = host_of self w.
Proof. reflexivity. Qed.

Lemma encode_body_host self kwargs w d o w1 :
  encode_body json_dumps (kwargs ∪ opts_default w d) (opts_world w d) = (o, w1) →
  host_of self w1 = host_of self w.
Proof.
  intros H. apply encode_body_world in H as (_ & _ & H).
  unfold host_of. by rewrite H.
Qed.

(** ** The claims about [request] *)

(** C1 (the code departs from the claim).  A call that passes [raw] does not
    get it removed from the options and dispatched: [opts.pop('raw')] is
    applied to the default options, which have no such key, so the call
    raises [KeyError('raw')] before the body is encoded, before the debug
    line is logged and before anything is sent. *)
Theorem raw_option_raises_KeyError self method url kwargs v w d :
  heap w !! _headers self = Some d →
  kwargs !! "raw" = Some v →
  ∃ w', req self method url kwargs w = (Raise (KeyError "raw"), w')
        ∧ wire w' = wire w ∧ logs w' = logs w.
Proof.
  intros Hd Hraw. exists (opts_world w d).
  by rewrite (request_raw _ _ _ _ _ _ _ Hd Hraw).
Qed.

(** C3 (amended).  When neither the client's host nor [solvebio.api_host] is
    set, no call of the transport is made.  If moreover the call does not
    pass [raw] and its body can be encoded, what is raised is the
    configuration error, and nothing is logged. *)
Theorem no_host_no_transport self method url kwargs w d out w' :
  heap w !! _headers self = Some d →
  str_truthy (_api_host self) = false →
  str_truthy (api_host (solvebio w)) = false →
  req self method url kwargs w = (out, w') →
  wire w' = wire w
  ∧ (kwargs !! "raw" = None → encodable json_dumps w d kwargs →
     out = Raise configuration_error ∧ logs w' = logs w).
Proof.
  intros Hd Hself Hcfg Hrun.
  assert (Hhost : ∀ w1, solvebio w1 = solvebio w → str_truthy (host_of self w1) = false).
  { intros w1 E. unfold host_of, str_or. by rewrite Hself, E. }
  destruct (kwargs !! "raw") as [v|] eqn:Hraw.
  { rewrite (request_raw _ _ _ _ _ _ _ Hd Hraw) in Hrun.
    injection Hrun as _ <-. split; [done | intros [=]]. }
  rewrite (request_no_raw _ _ _ _ _ _ Hd Hraw) in Hrun.
  destruct (encode_body _ _ _) as [[opts1|e] w1] eqn:Henc;
    pose proof (encode_body_world _ _ _ _ _ Henc) as (Hw & Hl & Hs).
  - rewrite (Hhost _ Hs) in Hrun. injection Hrun as <- <-. done.
  - injection Hrun as <- <-. split; [done|]. intros _ Hok. exfalso.
    rewrite encode_body_run in Henc. unfold encodable in Hok.
    destruct (truthy _ _).
    + destruct Hok as (l & Hl'). by rewrite Hl' in Henc.
    + destruct Hok as (s & Hs'). by rewrite Hs' in Henc.
Qed.

(** C4.  When the transport answers with a status code outside [200, 400),
    [request] raises the API error that carries the response, whatever the
    code; the log gets the debug line of the call and then, for a code other
    than 400, 401, 403 and 404 only, the line [API Error: <code>]. *)
Theorem status_outside_range_raises_api_error
    self method url kwargs w d out w' c r :
  heap w !! _headers self = Some d →
  req self method url kwargs w = (out, w') →
  wire w' = (wire w ++ [c])%list →
  (∀ wl m u o, requests_request wl m u o = inr r) →
  in_range (status_code r) = false →
  out = Raise (api_error r)
  ∧ logs w' =
      (logs w
       ++ [LogDebug ("API " +:+ w_method c +:+ " Request: " +:+ w_url c)]
       ++ (if int_in (status_code r) [400; 401; 403; 404] then []
           else [LogInfo ("API Error: " +:+ format_d (status_code r))]))%list.
Proof.
  intros Hd Hrun Hwire Hnet Hst.
  destruct (request_dispatch_inv _ _ _ _ _ _ _ _ _ Hd Hrun Hwire)
    as (_ & opts1 & w1 & Henc & _ & _ & Hdis).
  apply encode_body_world in Henc as (_ & Hl & _).
  unfold dispatched in Hdis. rewrite Hnet, request_result_run, Hst in Hdis.
  destruct (int_in (status_code r) [400; 401; 403; 404]);
    injection Hdis as <- <-; (split; [done|]);
    cbn [logs add_log add_wire]; rewrite Hl; [done | by rewrite <- app_assoc].
Qed.

(** C6.  When the call of the transport raises an exception, [request]
    raises a [SolveError] built from a message only (no response), and the
    message contains the name of the exception's type and its text. *)
Theorem transport_exception_raises_transport_error
    self method url kwargs w d out w' c e :
  heap w !! _headers self = Some d →
  req self method url kwargs w = (out, w') →
  wire w' = (wire w ++ [c])%list →
  (∀ wl m u o, requests_request wl m u o = inl e) →
  ∃ msg, out = Raise (transport_error msg)
         ∧ contains msg (exc_type e) ∧ contains msg (exc_str e).
Proof.
  intros Hd Hrun Hwire Hnet.
  destruct (request_dispatch_inv _ _ _ _ _ _ _ _ _ Hd Hrun Hwire)
    as (_ & opts1 & w1 & _ & _ & _ & Hdis).
  unfold dispatched in Hdis. rewrite Hnet in Hdis.
  match type of Hdis with _ ?e ?w = _ =>
    destruct (handle_request_error_run (A := result) e w) as (msg & Hmsg & Ht & Hs)
  end.
  rewrite Hmsg in Hdis. injection Hdis as <- _. by exists msg.
Qed.


(** C8.  In a call that reaches the transport: when [files] is true, the
    header dictionary that is sent has no [Content-Type] entry and [data] is
    sent as the caller gave it (or as the default, the empty dictionary);
    when [files] is false, [data] is replaced by its JSON text. *)
Theorem files_drop_content_type_else_json_body
    self method url kwargs w d out w' c :
  heap w !! _headers self = Some d →
  req self method url kwargs w = (out, w') →
  wire w' = (wire w ++ [c])%list →
  if truthy (opts_heap w d) (files_of kwargs) then
    (∃ l, w_opts c !! "headers" = Some (VDict l)
          ∧ ∀ hd, heap w' !! l = Some hd → hd !! "Content-Type" = None)
    ∧ w_opts c !! "data" = Some (data_of w kwargs)
  else
    ∃ s, json_dumps (opts_heap w d) (data_of w kwargs) = inr s
         ∧ w_opts c !! "data" = Some (VStr s).
Proof.
  intros Hd Hrun Hwire.
  destruct (request_dispatch_inv _ _ _ _ _ _ _ _ _ Hd Hrun Hwire)
    as (_ & opts1 & w1 & Henc & _ & -> & Hdis).
  apply dispatched_world in Hdis as (_ & Hheap).
  rewrite encode_body_run in Henc. cbn [w_opts].
  destruct (truthy (opts_heap w d) (files_of kwargs)).
  - destruct (headers_of w kwargs) as [| | | |l| |] eqn:Hh; try discriminate.
    injection Henc as <- <-. split; [|apply merged_data].
    exists l. split; [by rewrite merged_headers, Hh|].
    intros hd. rewrite Hheap. cbn [heap set_heap]. rewrite lookup_alter_eq.
    destruct (opts_heap w d !! l); intros [= <-]. apply lookup_delete_eq.
  - destruct (json_dumps _ _) as [e|s]; [discriminate|].
    injection Henc as <- <-. exists s. split; [done | apply lookup_insert_eq].
Qed.

(** C9.  In a call that reaches the transport, the host is the client's own
    [_api_host] when it is set and [solvebio.api_host] otherwise; the URL that
    is sent is the given one when it starts with the host, and
    [urljoin(host, url)] otherwise. *)
Theorem url_resolved_against_host self method url kwargs w d out w' c :
  heap w !! _headers self = Some d →
  req self method url kwargs w = (out, w') →
  wire w' = (wire w ++ [c])%list →
  host_of self w = (if str_truthy (_api_host self) then _api_host self
                    else api_host (solvebio w))
  ∧ ∃ host, host_of self w = Some host
      ∧ w_url c = if startswith url host then url else urljoin host url.
Proof.
  intros Hd Hrun Hwire. split; [reflexivity|].
  destruct (request_dispatch_inv _ _ _ _ _ _ _ _ _ Hd Hrun Hwire)
    as (_ & opts1 & w1 & Henc & Hhost & -> & _).
  rewrite (encode_body_host _ _ _ _ _ _ Henc) in *.
  destruct (host_of self w) as [host|]; [|discriminate].
  by exists host.
Qed.

(** A call that does not pass [headers] sends a new dictionary, a copy of
    the client's (without [Content-Type] in an upload), and leaves every
    dictionary that existed before as it was. *)
Lemma request_default_headers self method url kwargs w d out w' c :
  heap w !! _headers self = Some d →
  kwargs !! "headers" = None →
  req self method url kwargs w = (out, w') →
  wire w' = (wire w ++ [c])%list →
  w_opts c !! "headers" = Some (VDict (headers_loc w))
  ∧ heap w' !! headers_loc w
    = Some (if truthy (opts_heap w d) (files_of kwargs)
            then delete "Content-Type" d else d)
  ∧ ∀ l x, heap w !! l = Some x → heap w' !! l = Some x.
Proof.
  intros Hd Hk Hrun Hwire.
  destruct (request_dispatch_inv _ _ _ _ _ _ _ _ _ Hd Hrun Hwire)
    as (_ & opts1 & w1 & Henc & _ & -> & Hdis).
  apply dispatched_world in Hdis as (_ & Hheap).
  rewrite encode_body_run in Henc. cbn [w_opts]. rewrite Hheap.
  assert (Hh : headers_of w kwargs = VDict (headers_loc w))
    by (unfold headers_of; by rewrite Hk).
  rewrite Hh in Henc.
  destruct (truthy (opts_heap w d) (files_of kwargs)).
  - injection Henc as <- <-. cbn [heap set_heap].
    split; [by rewrite merged_headers, Hh|]. split.
    + by rewrite lookup_alter_eq, opts_heap_headers.
    + intros l x Hl. rewrite lookup_alter_ne; [by apply opts_heap_old|].
      intros <-. by rewrite headers_loc_fresh in Hl.
  - destruct (json_dumps _ _) as [e|s]; [discriminate|].
    injection Henc as <- <-. cbn [heap opts_world set_heap].
    split; [|split].
    + rewrite lookup_insert_ne by done. by rewrite merged_headers, Hh.
    + apply opts_heap_headers.
    + intros l x. apply opts_heap_old.
Qed.

(** A call that passes [headers] sends that very value; when it is a
    dictionary, the object sent is the caller's, with the caller's entries
    (without [Content-Type] in an upload). *)
Lemma request_caller_headers self method url kwargs w d out w' c v :
  heap w !! _headers self = Some d →
  kwargs !! "headers" = Some v →
  req self method url kwargs w = (out, w') →
  wire w' = (wire w ++ [c])%list →
  w_opts c !! "headers" = Some v
  ∧ ∀ l h, v = VDict l → heap w !! l = Some h →
      heap w' !! l
      = Some (if truthy (opts_heap w d) (files_of kwargs)
              then delete "Content-Type" h else h).
Proof.
  intros Hd Hk Hrun Hwire.
  destruct (request_dispatch_inv _ _ _ _ _ _ _ _ _ Hd Hrun Hwire)
    as (_ & opts1 & w1 & Henc & _ & -> & Hdis).
  apply dispatched_world in Hdis as (_ & Hheap).
  rewrite encode_body_run in Henc. cbn [w_opts]. rewrite Hheap.
  assert (Hh : headers_of w kwargs = v) by (unfold headers_of; by rewrite Hk).
  rewrite Hh in Henc.
  destruct (truthy (opts_heap w d) (files_of kwargs)).
  - destruct v as [| | | |l'| |]; try discriminate.
    injection Henc as <- <-. cbn [heap set_heap].
    split; [by rewrite merged_headers, Hh|].
    intros l h [= <-] Hl.
    by rewrite lookup_alter_eq, (opts_heap_old _ _ _ _ Hl).
  - destruct (json_dumps _ _) as [e|s]; [discriminate|].
    injection Henc as <- <-. cbn [heap opts_world set_heap].
    split; [rewrite lookup_insert_ne by done; by rewrite merged_headers, Hh|].
    intros l h _ Hl. by apply opts_heap_old.
Qed.

(** C2 (amended).  Two calls in a row that do not pass [headers]: each sends
    a dictionary of its own, a new object holding a copy of the client's
    default headers, without [Content-Type] exactly when its [files] is true;
    the two objects differ from each other and from the client's default
    dictionary.  Whatever is written into the first call's dictionary between
    the calls ([h']), the second call sends the copy of the defaults, the
    defaults are what they were, and the first call's dictionary keeps what
    was written.  A call that does pass [headers] sends that very value in
    place of the default: a dictionary passed in is sent as the caller's own
    object, holding the caller's entries (without [Content-Type] when [files]
    is true) and nothing of the defaults. *)
Theorem default_headers_copied_per_call
    self m1 u1 k1 m2 u2 k2 w d out1 w1 c1 h' out2 w2 c2 :
  let wm := set_heap (<[headers_loc w := h']> (heap w1)) w1 in
  heap w !! _headers self = Some d →
  k1 !! "headers" = None →
  k2 !! "headers" = None →
  req self m1 u1 k1 w = (out1, w1) →
  wire w1 = (wire w ++ [c1])%list →
  req self m2 u2 k2 wm = (out2, w2) →
  wire w2 = (wire w1 ++ [c2])%list →
  (w_opts c1 !! "headers" = Some (VDict (headers_loc w))
   ∧ heap w !! headers_loc w = None
   ∧ headers_loc w ≠ _headers self
   ∧ heap w1 !! headers_loc w
     = Some (if truthy (opts_heap w d) (files_of k1)
             then delete "Content-Type" d else d))
  ∧ (w_opts c2 !! "headers" = Some (VDict (headers_loc wm))
     ∧ heap wm !! headers_loc wm = None
     ∧ headers_loc wm ≠ headers_loc w
     ∧ headers_loc wm ≠ _headers self
     ∧ heap w2 !! headers_loc wm
       = Some (if truthy (opts_heap wm d) (files_of k2)
               then delete "Content-Type" d else d)
     ∧ heap w2 !! _headers self = Some d
     ∧ heap w2 !! headers_loc w = Some h')
  ∧ ∀ m u k w0 d0 out w0' c v,
      heap w0 !! _headers self = Some d0 →
      k !! "headers" = Some v →
      req self m u k w0 = (out, w0') →
      wire w0' = (wire w0 ++ [c])%list →
      w_opts c !! "headers" = Some v
      ∧ ∀ l h, v = VDict l → heap w0 !! l = Some h →
          heap w0' !! l
          = Some (if truthy (opts_heap w0 d0) (files_of k)
                  then delete "Content-Type" h else h).
Proof.
  intros wm Hd Hk1 Hk2 Hrun1 Hwire1 Hrun2 Hwire2.
  destruct (request_default_headers _ _ _ _ _ _ _ _ _ Hd Hk1 Hrun1 Hwire1)
    as (Hc1 & Hh1 & Hold1).
  assert (Hne : headers_loc w ≠ _headers self).
  { intros E. pose proof (headers_loc_fresh w) as F. rewrite E in F. congruence. }
  assert (Hd' : heap wm !! _headers self = Some d).
  { cbn [wm heap set_heap]. rewrite lookup_insert_ne by done. by apply Hold1. }
  assert (Hh' : heap wm !! headers_loc w = Some h').
  { cbn [wm heap set_heap]. apply lookup_insert_eq. }
  assert (Hwm : wire wm = wire w1) by done.
  rewrite <- Hwm in Hwire2.
  destruct (request_default_headers _ _ _ _ _ _ _ _ _ Hd' Hk2 Hrun2 Hwire2)
    as (Hc2 & Hh2 & Hold2).
  assert (Hf2 := headers_loc_fresh wm).
  split; [|split].
  - repeat split; try done. apply headers_loc_fresh.
  - repeat split; try done.
    + intros E. rewrite E in Hf2. congruence.
    + intros E. rewrite E in Hf2. congruence.
    + by apply Hold2.
    + by apply Hold2.
  - intros m u k w0 d0 out w0' c v Hd0 Hk Hrun Hwire.
    exact (request_caller_headers _ _ _ _ _ _ _ _ _ _ Hd0 Hk Hrun Hwire).
Qed.

(** ** Further properties of [request], [get] and [post] *)

Lemma upper_ascii_idem (c : ascii) : upper_ascii (upper_ascii c) = upper_ascii c.
Proof. destruct c as [[] [] [] [] [] [] [] []]; reflexivity. Qed.

Lemma upper_idem (s : string) : upper (upper s) = upper s.
Proof.
  induction s as [|c s IH]; [done|]. cbn [upper]. by rewrite upper_ascii_idem, IH.
Qed.

Lemma wire_grew (w w' : world) (c : wire_call) :
  wire w' = (wire w ++ [c])%list → wire w' ≠ wire w.
Proof.
  intros -> E. apply (f_equal length) in E. rewrite length_app in E.
  simpl in E. lia.
Qed.

(** What [dispatched] leaves in the log: the debug line, then at most the
    info line of an unclassified status. *)
Lemma dispatched_logs method url opts w1 out w' :
  dispatched method url opts w1 = (out, w') →
  ∃ rest, logs w' = (logs w1
            ++ LogDebug ("API " +:+ method +:+ " Request: " +:+ url) :: rest)%list
          ∧ (length rest ≤ 1)%nat.
Proof.
  unfold dispatched. destruct (requests_request _ _ _ _) as [e|r].
  - destruct (handle_request_error_run (A := result) e
      (add_wire (mkWire method url opts)
         (add_log (LogDebug ("API " +:+ method +:+ " Request: " +:+ url)) w1)))
      as (msg & -> & _).
    intros [= <- <-]. exists []. split; [done | simpl; lia].
  - rewrite request_result_run.
    destruct (in_range (status_code r)).
    + assert (∀ o, (o, add_wire (mkWire method url opts)
                (add_log (LogDebug ("API " +:+ method +:+ " Request: " +:+ url)) w1))
                = (out, w') →
              ∃ rest, logs w' = (logs w1
                 ++ LogDebug ("API " +:+ method +:+ " Request: " +:+ url) :: rest)%list
                 ∧ (length rest ≤ 1)%nat) as Hk.
      { intros o [= <- <-]. exists []. split; [done | simpl; lia]. }
      destruct (_ || _); [apply Hk|]. destruct (json_view r); apply Hk.
    + destruct (int_in _ _); intros [= <- <-].
      * exists []. split; [done | simpl; lia].
      * exists [LogInfo ("API Error: " +:+ format_d (status_code r))].
        split; [|simpl; lia]. cbn [logs add_log add_wire].
        by rewrite <- app_assoc.
Qed.

(** X1.  The method is upper-cased before anything else looks at it: a call
    with [method] and the call with [method.upper()] are the same. *)
Theorem method_case_insensitive self method url kwargs w :
  req self (upper method) url kwargs w = req self method url kwargs w.
Proof. unfold request. by rewrite upper_idem. Qed.

(** X2.  A call makes at most one call of the transport (no retry).  When it
    makes none it raises and logs nothing; when it makes one, the method sent
    is the upper-cased one and the log gets the debug line naming the method
    and the URL sent, followed by at most one more line. *)
Theorem request_trace self method url kwargs w d out w' :
  heap w !! _headers self = Some d →
  req self method url kwargs w = (out, w') →
  (wire w' = wire w ∧ logs w' = logs w ∧ ∃ e, out = Raise e)
  ∨ ∃ c rest,
      wire w' = (wire w ++ [c])%list
      ∧ w_method c = upper method
      ∧ logs w' = (logs w ++ LogDebug ("API " +:+ upper method +:+ " Request: "
                                       +:+ w_url c) :: rest)%list
      ∧ (length rest ≤ 1)%nat.
Proof.
  intros Hd Hrun.
  destruct (kwargs !! "raw") as [v|] eqn:Hraw.
  { rewrite (request_raw _ _ _ _ _ _ _ Hd Hraw) in Hrun.
    injection Hrun as <- <-. left. eauto. }
  rewrite (request_no_raw _ _ _ _ _ _ Hd Hraw) in Hrun.
  destruct (encode_body _ _ _) as [[opts1|e] w1] eqn:Henc;
    pose proof (encode_body_world _ _ _ _ _ Henc) as (Hw & Hl & _).
  2:{ injection Hrun as <- <-. left. eauto. }
  destruct (str_truthy (host_of self w1)).
  2:{ injection Hrun as <- <-. left. eauto. }
  right.
  destruct (dispatched_world _ _ _ _ _ _ Hrun) as (Hw' & _).
  destruct (dispatched_logs _ _ _ _ _ _ Hrun) as (rest & Hl' & Hn).
  eexists _, rest. rewrite Hw', Hw, Hl', Hl. done.
Qed.

(** X3.  A call reaches the transport exactly when it does not pass [raw],
    its body can be encoded, and a host is set. *)
Theorem request_reaches_transport_iff self method url kwargs w d out w' :
  heap w !! _headers self = Some d →
  req self method url kwargs w = (out, w') →
  (∃ c, wire w' = (wire w ++ [c])%list)
  ↔ kwargs !! "raw" = None
    ∧ encodable json_dumps w d kwargs
    ∧ str_truthy (host_of self w) = true.
Proof.
  intros Hd Hrun. split.
  - intros (c & Hwire).
    destruct (request_dispatch_inv _ _ _ _ _ _ _ _ _ Hd Hrun Hwire)
      as (Hraw & opts1 & w1 & Henc & Hhost & _).
    rewrite (encode_body_host _ _ _ _ _ _ Henc) in Hhost.
    repeat split; try done.
    rewrite encode_body_run in Henc. unfold encodable.
    destruct (truthy _ _).
    + destruct (headers_of w kwargs); try discriminate. eauto.
    + destruct (json_dumps _ _); [discriminate | eauto].
  - intros (Hraw & Hok & Hhost).
    rewrite (request_no_raw _ _ _ _ _ _ Hd Hraw) in Hrun.
    destruct (encode_body _ _ _) as [[opts1|e] w1] eqn:Henc.
    + rewrite (encode_body_host _ _ _ _ _ _ Henc), Hhost in Hrun.
      apply encode_body_world in Henc as (Hw & _).
      apply dispatched_world in Hrun as (Hw' & _).
      eexists. by rewrite Hw', Hw.
    + exfalso. rewrite encode_body_run in Henc. unfold encodable in Hok.
      destruct (truthy _ _).
      * destruct Hok as (l & Hl). by rewrite Hl in Henc.
      * destruct Hok as (t & Ht). by rewrite Ht in Henc.
Qed.


(** X5.  Whatever the outcome of a call, every dictionary that existed before
    it is left as it was, except the one the caller passes as [headers]; in
    particular the client's default headers. *)
Theorem request_preserves_other_dictionaries
    self method url kwargs w d out w' l x :
  heap w !! _headers self = Some d →
  request default_message json_dumps textwrap_fill urljoin requests_request
    self method url kwargs w = (out, w') →
  heap w !! l = Some x →
  kwargs !! "headers" ≠ Some (VDict l) →
  heap w' !! l = Some x.
Proof.
  intros Hd Hrun Hl Hne.
  destruct (kwargs !! "raw") as [v|] eqn:Hraw.
  { rewrite (request_raw _ _ _ _ _ _ _ Hd Hraw) in Hrun.
    injection Hrun as _ <-. by apply opts_heap_old. }
  rewrite (request_no_raw _ _ _ _ _ _ Hd Hraw) in Hrun.
  assert (Henc : ∀ o w1,
    encode_body json_dumps (kwargs ∪ opts_default w d) (opts_world w d) = (o, w1) →
    heap w1 !! l = Some x).
  { intros o w1. rewrite encode_body_run.
    destruct (truthy _ _).
    - destruct (headers_of w kwargs) as [| | | |l'| |] eqn:Hh;
        intros [= <- <-].
      1-4, 6-7: exact (opts_heap_old _ _ _ _ Hl).
      cbn [heap set_heap]. rewrite lookup_alter_ne; [by apply opts_heap_old|].
      intros ->. unfold headers_of in Hh.
      destruct (kwargs !! "headers") as [hv|]; simpl in Hh.
      + by subst hv.
      + injection Hh as <-. by rewrite headers_loc_fresh in Hl.
    - destruct (json_dumps _ _); intros [= <- <-]; by apply opts_heap_old. }
  destruct (encode_body _ _ _) as [[opts1|e] w1] eqn:E;
    specialize (Henc _ _ eq_refl).
  2:{ by injection Hrun as _ <-. }
  destruct (str_truthy (host_of self w1)).
  2:{ by injection Hrun as _ <-. }
  apply dispatched_world in Hrun as (_ & Hh). by rewrite Hh.
Qed.

(** X6.  An upload that passes the caller's own header dictionary and does
    not pass [raw] removes [Content-Type] from that dictionary, the caller's
    object, and does so before the host is looked at: also when the call
    then fails.  An upload that passes [raw] fails before that and leaves the
    dictionary as it was. *)
Theorem upload_pops_content_type_of_caller_headers
    self method url kwargs w d out w' l h :
  heap w !! _headers self = Some d →
  req self method url kwargs w = (out, w') →
  kwargs !! "headers" = Some (VDict l) →
  heap w !! l = Some h →
  truthy (opts_heap w d) (files_of kwargs) = true →
  heap w' !! l
  = Some (match kwargs !! "raw" with
          | Some _ => h
          | None => delete "Content-Type" h
          end).
Proof.
  intros Hd Hrun Hh Hl Hf.
  destruct (kwargs !! "raw") as [v|] eqn:Hraw.
  { rewrite (request_raw _ _ _ _ _ _ _ Hd Hraw) in Hrun.
    injection Hrun as _ <-. by apply opts_heap_old. }
  rewrite (request_no_raw _ _ _ _ _ _ Hd Hraw) in Hrun.
  rewrite encode_body_run, Hf in Hrun.
  assert (Hho : headers_of w kwargs = VDict l) by (unfold headers_of; by rewrite Hh).
  rewrite Hho in Hrun.
  assert (Hw1 : alter (delete "Content-Type") l (opts_heap w d) !! l
                = Some (delete "Content-Type" h)).
  { by rewrite lookup_alter_eq, (opts_heap_old _ _ _ _ Hl). }
  cbn [host_of set_heap solvebio opts_world] in Hrun.
  match type of Hrun with (if ?b then _ else _) = _ => destruct b end.
  - apply dispatched_world in Hrun as (_ & Hheap). by rewrite Hheap.
  - by injection Hrun as _ <-.
Qed.

(** X7.  When the transport answers with a status code of [200, 400) other
    than 204, 301 and 302 and the body is not JSON, the exception that
    [response.json()] raises leaves [request] as it is: it is not turned into
    a [SolveError], and only the debug line is logged. *)
Theorem undecodable_body_raises_decoder_exception
    self method url kwargs w d out w' c r e :
  heap w !! _headers self = Some d →
  req self method url kwargs w = (out, w') →
  wire w' = (wire w ++ [c])%list →
  (∀ wl m u o, requests_request wl m u o = inr r) →
  in_range (status_code r) = true →
  int_in (status_code r) [204; 301; 302] = false →
  json_view r = inl e →
  out = Raise (PyError e)
  ∧ logs w' = (logs w ++ [LogDebug ("API " +:+ w_method c +:+ " Request: "
                                    +:+ w_url c)])%list.
Proof.
  intros Hd Hrun Hwire Hnet Hst H3 Hj.
  destruct (request_dispatch_inv _ _ _ _ _ _ _ _ _ Hd Hrun Hwire)
    as (_ & opts1 & w1 & Henc & _ & _ & Hdis).
  apply encode_body_world in Henc as (_ & Hl & _).
  unfold dispatched in Hdis.
  rewrite Hnet, request_result_run, Hst, H3, Hj in Hdis.
  cbn [truthy orb] in Hdis. injection Hdis as <- <-.
  split; [done|]. cbn [logs add_log add_wire]. by rewrite Hl.
Qed.

(** X8.  Unless the caller passes [auth], the auth handler sent is a
    [SolveTokenAuth] whose token comes from [solvebio.api_key] or else from
    the stored credentials: the client's own [_api_key] is not consulted. *)
Theorem default_auth_from_process_settings self method url kwargs w d out w' c :
  heap w !! _headers self = Some d →
  req self method url kwargs w = (out, w') →
  wire w' = (wire w ++ [c])%list →
  kwargs !! "auth" = None →
  w_opts c !! "auth" = Some (VAuth (SolveTokenAuth._get_api_key w))
  ∧ SolveTokenAuth._get_api_key w
    = (if str_truthy (api_key (solvebio w)) then api_key (solvebio w)
       else match credentials w with
            | CredsTuple (_ :: second :: _) => second
            | _ => None
            end).
Proof.
  intros Hd Hrun Hwire Hk.
  destruct (request_dispatch_inv _ _ _ _ _ _ _ _ _ Hd Hrun Hwire)
    as (Hraw & opts1 & w1 & Henc & _ & -> & _).
  cbn [w_opts]. split.
  - rewrite encode_body_run in Henc.
    destruct (truthy _ _).
    + destruct (headers_of w kwargs); try discriminate. injection Henc as <- _.
      by rewrite merged_lookup, Hk.
    + destruct (json_dumps _ _); [discriminate|]. injection Henc as <- _.
      rewrite lookup_insert_ne by done. by rewrite merged_lookup, Hk.
  - unfold SolveTokenAuth._get_api_key.
    destruct (str_truthy _); [done|].
    destruct (credentials w) as [?| |[|? [|? ?]]]; reflexivity.
Qed.

Lemma bind_args_cases f names kwargs w :
  (bind_args f names kwargs w = (Return tt, w)
   ∧ ∀ n, n ∈ names → kwargs !! n = None)
  ∨ ∃ e, bind_args f names kwargs w = (Raise e, w).
Proof.
  unfold bind_args.
  destruct (List.find _ names) as [n|] eqn:E; [right; eauto|].
  left. split; [done|]. intros n Hn.
  apply list_elem_of_In in Hn.
  pose proof (find_none _ _ E n Hn) as Hb. cbn beta in Hb.
  apply bool_decide_eq_false in Hb.
  destruct (kwargs !! n); [|done]. exfalso. apply Hb. eauto.
Qed.

(** [get] and [post] are [request] on the keyword arguments with one more
    entry, once the arguments are bound. *)
Lemma wrapper_run f names m key v self url kwargs w out w' c :
  ((_ ← bind_args f names kwargs;
    _ ← bind_args "request" ["self"; "method"; "url"] (<[key := v]> kwargs);
    req self m url (<[key := v]> kwargs)) w) = (out, w') →
  wire w' = (wire w ++ [c])%list →
  req self m url (<[key := v]> kwargs) w = (out, w')
  ∧ (∀ n, n ∈ names → kwargs !! n = None)
  ∧ ∀ n, n ∈ ["self"; "method"; "url"] → <[key := v]> kwargs !! n = None.
Proof.
  intros Hrun Hwire. apply wire_grew in Hwire.
  rewrite bind_run in Hrun.
  destruct (bind_args_cases f names kwargs w) as [[E1 H1]|[e E1]];
    rewrite E1 in Hrun; [|by injection Hrun as _ <-].
  rewrite bind_run in Hrun.
  destruct (bind_args_cases "request" ["self"; "method"; "url"]
              (<[key := v]> kwargs) w) as [[E2 H2]|[e E2]];
    rewrite E2 in Hrun; [|by injection Hrun as _ <-].
  done.
Qed.

(** X9.  A [get] that reaches the transport sends the method [GET] and, as
    [params], the value given for it; a keyword that names [params], [url]
    or [method] never gets that far (the call is refused with [TypeError]). *)
Theorem get_sends_params self url params kwargs w d out w' c :
  heap w !! _headers self = Some d →
  get default_message json_dumps textwrap_fill urljoin requests_request
    self url params kwargs w = (out, w') →
  wire w' = (wire w ++ [c])%list →
  w_method c = "GET"
  ∧ w_opts c !! "params" = Some params
  ∧ kwargs !! "params" = None ∧ kwargs !! "url" = None
  ∧ kwargs !! "method" = None.
Proof.
  intros Hd Hrun Hwire. unfold get in Hrun.
  destruct (wrapper_run _ _ _ _ _ _ _ _ _ _ _ _ Hrun Hwire) as (Hreq & H1 & H2).
  destruct (request_dispatch_inv _ _ _ _ _ _ _ _ _ Hd Hreq Hwire)
    as (Hraw & opts1 & w1 & Henc & _ & -> & _).
  cbn [w_opts w_method]. split; [done|]. split.
  - rewrite encode_body_run in Henc.
    destruct (truthy _ _).
    + destruct (headers_of w _); try discriminate. injection Henc as <- _.
      by rewrite merged_lookup, lookup_insert_eq.
    + destruct (json_dumps _ _); [discriminate|]. injection Henc as <- _.
      rewrite lookup_insert_ne by done.
      by rewrite merged_lookup, lookup_insert_eq.
  - repeat split; [apply H1 | apply H1 |]; try set_solver.
    specialize (H2 "method"). rewrite lookup_insert_ne in H2 by done.
    apply H2. set_solver.
Qed.

(** X10.  A [post] that reaches the transport sends the method [POST]; the
    value given for [data] is sent as it is when [files] is true and as its
    JSON text otherwise. *)
Theorem post_sends_data self url data kwargs w d out w' c :
  heap w !! _headers self = Some d →
  post default_message json_dumps textwrap_fill urljoin requests_request
    self url data kwargs w = (out, w') →
  wire w' = (wire w ++ [c])%list →
  w_method c = "POST"
  ∧ if truthy (opts_heap w d) (files_of kwargs) then
      w_opts c !! "data" = Some data
    else
      ∃ s, json_dumps (opts_heap w d) data = inr s
           ∧ w_opts c !! "data" = Some (VStr s).
Proof.
  intros Hd Hrun Hwire. unfold post in Hrun.
  destruct (wrapper_run _ _ _ _ _ _ _ _ _ _ _ _ Hrun Hwire) as (Hreq & H1 & H2).
  destruct (request_dispatch_inv _ _ _ _ _ _ _ _ _ Hd Hreq Hwire)
    as (Hraw & opts1 & w1 & Henc & _ & -> & _).
  cbn [w_opts w_method]. split; [done|].
  rewrite encode_body_run in Henc.
  assert (Hf : files_of (<["data" := data]> kwargs) = files_of kwargs).
  { unfold files_of. by rewrite lookup_insert_ne. }
  assert (Hdt : data_of w (<["data" := data]> kwargs) = data).
  { unfold data_of. by rewrite lookup_insert_eq. }
  rewrite Hf, Hdt in Henc.
  destruct (truthy _ _).
  - destruct (headers_of w _); try discriminate. injection Henc as <- _.
    by rewrite merged_lookup, lookup_insert_eq.
  - destruct (json_dumps _ _) as [e|s]; [discriminate|]. injection Henc as <- _.
    exists s. split; [done | apply lookup_insert_eq].
Qed.

End Phases.

(** ** The claims about [SolveTokenAuth] *)

(** C5.  The token of a new [SolveTokenAuth] is found without ever raising:
    it is the token passed in when there is one, else [solvebio.api_key] when
    it is set, else the second item of what [get_credentials()] returns; when
    that lookup raises, returns [None] or returns too short a tuple, the
    failure is swallowed and there is no token.  (A token or key that is
    [None] or empty counts as not given.) *)
Theorem credential_precedence (token : option string) (w : world) :
  SolveTokenAuth.__init__ token w =
  if str_truthy token then token
  else if str_truthy (api_key (solvebio w)) then api_key (solvebio w)
  else match credentials w with
       | CredsTuple (_ :: second :: _) => second
       | CredsTuple _ | CredsNone | CredsRaise _ => None
       end.
Proof.
  unfold SolveTokenAuth.__init__, SolveTokenAuth._get_api_key, str_or.
  destruct (str_truthy token); [done|].
  destruct (str_truthy (api_key (solvebio w))); [done|].
  destruct (credentials w) as [e| |[|first [|second rest]]]; reflexivity.
Qed.

Lemma token_header_not_empty (t : string) :
  str_truthy (Some t) = true → "Token " +:+ t ≠ "Token ".
Proof.
  intros Ht E. change ("Token " +:+ t = "Token " +:+ "") in E.
  apply (inj (String.app "Token ")) in E. by subst t.
Qed.

(** What [_get_api_key] finds: [solvebio.api_key] when it is set, else the
    second item of the stored credentials, else nothing. *)
Lemma get_api_key_precedence (w : world) :
  SolveTokenAuth._get_api_key w
  = if str_truthy (api_key (solvebio w)) then api_key (solvebio w)
    else match credentials w with
         | CredsTuple (_ :: second :: _) => second
         | CredsTuple _ | CredsNone | CredsRaise _ => None
         end.
Proof.
  unfold SolveTokenAuth._get_api_key.
  destruct (str_truthy (api_key (solvebio w))); [done|].
  destruct (credentials w) as [e| |[|first [|second rest]]]; reflexivity.
Qed.

(** C10.  A token that is [None] or the empty string is treated as absent:
    the instance gets [solvebio.api_key] when that is set, and else the
    second item of the stored credentials (nothing when the lookup fails),
    exactly as when no token is passed.  And whatever token the instance
    ends up with, calling it on a request never sets the [Authorization]
    header to the bare ["Token "]: the header is either left as it was or set
    to ["Token "] followed by a token that is not empty. *)
Theorem falsy_token_is_absent (w : world) (token : option string)
    (r : gmap string string) :
  SolveTokenAuth.__init__ None w
  = (if str_truthy (api_key (solvebio w)) then api_key (solvebio w)
     else match credentials w with
          | CredsTuple (_ :: second :: _) => second
          | CredsTuple _ | CredsNone | CredsRaise _ => None
          end)
  ∧ SolveTokenAuth.__init__ (Some "") w
    = (if str_truthy (api_key (solvebio w)) then api_key (solvebio w)
       else match credentials w with
            | CredsTuple (_ :: second :: _) => second
            | CredsTuple _ | CredsNone | CredsRaise _ => None
            end)
  ∧ (SolveTokenAuth.__call__ (SolveTokenAuth.__init__ token w) r = r
     ∨ ∃ t, t ≠ ""
          ∧ SolveTokenAuth.__call__ (SolveTokenAuth.__init__ token w) r
            = <["Authorization" := "Token " +:+ t]> r
          ∧ "Token " +:+ t ≠ "Token ").
Proof.
  split; [apply get_api_key_precedence|].
  split; [apply get_api_key_precedence|].
  unfold SolveTokenAuth.__call__.
  destruct (str_truthy (SolveTokenAuth.__init__ token w)) eqn:E; [|by left].
  right. destruct (SolveTokenAuth.__init__ token w) as [t|]; [|done].
  exists t. split; [by intros -> | split; [done | by apply token_header_not_empty]].
Qed.

(** ** Further properties of [SolveTokenAuth] and of the constructor *)

(** X11.  Calling the auth handler on a request touches no header but
    [Authorization]; it sets that one to ["Token <token>"] when there is a
    token (replacing what was there) and leaves it alone otherwise; calling
    it twice is calling it once. *)
Theorem auth_call_touches_only_authorization
    (token : option string) (r : gmap string string) :
  (∀ k, k ≠ "Authorization" → SolveTokenAuth.__call__ token r !! k = r !! k)
  ∧ SolveTokenAuth.__call__ token r !! "Authorization"
    = (if str_truthy token then Some ("Token " +:+ default "" token)
       else r !! "Authorization")
  ∧ SolveTokenAuth.__call__ token (SolveTokenAuth.__call__ token r)
    = SolveTokenAuth.__call__ token r.
Proof.
  unfold SolveTokenAuth.__call__. destruct (str_truthy token).
  - split; [intros k Hk; by rewrite lookup_insert_ne|].
    split; [apply lookup_insert_eq | apply insert_insert_eq].
  - done.
Qed.

(** X12.  [SolveClient(api_key, api_host)] always succeeds; it keeps the two
    arguments and makes a header dictionary of its own, a new object holding
    the four standard headers (the [User-Agent] names the version), without
    touching any existing dictionary, the log or the wire.  So two clients
    never share their header dictionary. *)
Theorem client_init_fresh_headers
    (VERSION python_implementation python_version : string)
    (key host : option string) (w : world) :
  ∃ c w' ua,
    SolveClient__init__ VERSION python_implementation python_version key host w
      = (Return c, w')
    ∧ _api_key c = key ∧ _api_host c = host
    ∧ heap w !! _headers c = None
    ∧ heap w' !! _headers c
      = Some {[ "Content-Type" := VStr "application/json";
                "Accept" := VStr "application/json";
                "Accept-Encoding" := VStr "gzip,deflate";
                "User-Agent" := VStr ua ]}
    ∧ contains ua VERSION
    ∧ (∀ l x, heap w !! l = Some x → heap w' !! l = Some x)
    ∧ wire w' = wire w ∧ logs w' = logs w
    ∧ ∀ key2 host2 c2 w2,
        SolveClient__init__ VERSION python_implementation python_version
          key2 host2 w' = (Return c2, w2) →
        _headers c2 ≠ _headers c.
Proof.
  unfold SolveClient__init__. eexists _, _, _. rewrite bind_run, alloc_run.
  split; [reflexivity|]. cbn [_api_key _api_host _headers heap set_heap wire logs].
  repeat split.
  - apply fresh_heap_None.
  - apply lookup_insert_eq.
  - auto 8 with contains.
  - intros l x Hl. rewrite lookup_insert_ne; [done|].
    intros <-. by rewrite fresh_heap_None in Hl.
  - intros key2 host2 c2 w2. rewrite bind_run, alloc_run.
    intros [= <- _]. cbn [_headers heap set_heap]. intros E.
    pose proof (fresh_heap_None
      (<[fresh (dom (heap w)) :=
           {[ "Content-Type" := VStr "application/json";
              "Accept" := VStr "application/json";
              "Accept-Encoding" := VStr "gzip,deflate";
              "User-Agent" := VStr ("SolveBio Python Client " +:+ VERSION +:+
                                    " [Python " +:+ python_implementation +:+
                                    "/" +:+ python_version +:+ "]") ]}]>
         (heap w))) as F.
    rewrite E, lookup_insert_eq in F. discriminate.
Qed.

(** ** The properties on concrete calls *)

Import Scenario.

Local Ltac run := vm_compute; exact eq_refl.

Lemma boot_client :
  (Double.boot (mkConfig None (Some "https://api.example.com")) CredsNone None None).1
  = Return client.
Proof. run. Qed.

Lemma client_headers_host : heap w_host !! _headers client = Some default_headers.
Proof. exact eq_refl. Qed.

Lemma client_headers_nohost : heap w_nohost !! _headers client = Some default_headers.
Proof. exact eq_refl. Qed.

Lemma client_headers_caller : heap w_caller !! _headers client = Some default_headers.
Proof. exact eq_refl. Qed.

(** The runs below reached the transport. *)
Lemma run_caller_alone_sent :
  wire run_caller_alone.2 = (wire w_caller ++ [sent run_caller_alone])%list.
Proof. run. Qed.

Lemma run_get_sent : wire run_get.2 = (wire w_host ++ [sent run_get])%list.
Proof. run. Qed.

Lemma run_500_sent : wire run_500.2 = (wire w_host ++ [sent run_500])%list.
Proof. run. Qed.

Lemma run_refused_sent :
  wire run_refused.2 = (wire w_host ++ [sent run_refused])%list.
Proof. run. Qed.

Lemma run_upload_sent : wire run_upload.2 = (wire w_host ++ [sent run_upload])%list.
Proof. run. Qed.

Lemma run_second_sent :
  wire run_second.2 = (wire run_upload.2 ++ [sent run_second])%list.
Proof. run. Qed.

(** C1 on a call: [request('get', '/v1/x', raw=True)] raises
    [KeyError('raw')] and nothing is sent. *)
Lemma raw_option_raises_KeyError_witness :
  ∃ w', run_raw = (Raise (KeyError "raw"), w')
        ∧ wire w' = wire w_host ∧ logs w' = logs w_host.
Proof.
  exact (raw_option_raises_KeyError Double.default_message Double.json_dumps
           Double.textwrap_fill Double.urljoin (Double.respond ok)
           client "get" "/v1/x" {[ "raw" := VBool true ]} (VBool true)
           w_host default_headers client_headers_host eq_refl).
Defined.

(** C2 as stated fails: two calls that pass the caller's dictionary both send
    that very dictionary; the upload removes the caller's [Content-Type] from
    it, so the second call sends headers without the [Content-Type] that it
    sends when it is run on its own; and the dictionary was never seeded
    from the defaults (it has no [Accept]). *)
Lemma caller_headers_shared_between_calls :
  (λ c, w_opts c !! "headers") <$> wire run_caller_second.2
    = [Some (VDict caller_headers); Some (VDict caller_headers)]
  ∧ heap run_caller_alone.2 !! caller_headers ≫= (.!! "Content-Type")
    = Some (VStr "text/csv")
  ∧ heap run_caller_second.2 !! caller_headers ≫= (.!! "Content-Type") = None
  ∧ heap run_caller_second.2 !! caller_headers ≫= (.!! "Accept") = None.
Proof. split; [run|]. split; [run|]. split; run. Qed.

(** C2 (amended) on two calls: an upload, the caller emptying its header
    dictionary, then a second call; and on a call that passes the caller's
    dictionary. *)
Lemma default_headers_copied_per_call_witness :
  (w_opts (sent run_upload) !! "headers" = Some (VDict (headers_loc w_host))
   ∧ heap run_upload.2 !! headers_loc w_host
     = Some (delete "Content-Type" default_headers))
  ∧ (w_opts (sent run_second) !! "headers" = Some (VDict (headers_loc w_between))
     ∧ headers_loc w_between ≠ headers_loc w_host
     ∧ headers_loc w_between ≠ _headers client
     ∧ heap run_second.2 !! headers_loc w_between = Some default_headers
     ∧ heap run_second.2 !! _headers client = Some default_headers
     ∧ heap run_second.2 !! headers_loc w_host = Some ∅)
  ∧ w_opts (sent run_caller_alone) !! "headers" = Some (VDict caller_headers).
Proof.
  assert (Hk1 : ({[ "files" := VObject "file" ]} : gmap string value) !! "headers"
                = None) by exact eq_refl.
  assert (Hk2 : (∅ : gmap string value) !! "headers" = None) by exact eq_refl.
  assert (Hk3 : ({[ "headers" := VDict caller_headers ]} : gmap string value)
                  !! "headers" = Some (VDict caller_headers)) by exact eq_refl.
  destruct (default_headers_copied_per_call Double.default_message
              Double.json_dumps Double.textwrap_fill Double.urljoin
              (Double.respond ok)
              client "post" "/v1/upload" {[ "files" := VObject "file" ]}
              "get" "/v1/x" ∅ w_host default_headers
              run_upload.1 run_upload.2 (sent run_upload) ∅
              run_second.1 run_second.2 (sent run_second)
              client_headers_host Hk1 Hk2
              (surjective_pairing run_upload) run_upload_sent
              (surjective_pairing run_second) run_second_sent)
    as ((H1 & _ & _ & H2) & (H3 & _ & H4 & H5 & H6 & H7 & H8) & Hcaller).
  split; [exact (conj H1 H2)|].
  split; [exact (conj H3 (conj H4 (conj H5 (conj H6 (conj H7 H8)))))|].
  exact (proj1 (Hcaller "get" "/v1/x" {[ "headers" := VDict caller_headers ]}
                  w_caller default_headers
                  run_caller_alone.1 run_caller_alone.2 (sent run_caller_alone)
                  (VDict caller_headers)
                  client_headers_caller Hk3
                  (surjective_pairing run_caller_alone) run_caller_alone_sent)).
Defined.

(** C3 as stated fails: with no host set, a call whose data [json.dumps]
    rejects raises that [TypeError], not the configuration error. *)
Lemma no_host_data_not_serializable :
  str_truthy (_api_host client) = false
  ∧ str_truthy (api_host (solvebio w_nohost)) = false
  ∧ run_nohost_set.1
    = Raise (PyError (PyExc "TypeError" "<set object> is not JSON serializable" false))
  ∧ run_nohost_set.1 ≠ Raise configuration_error.
Proof.
  assert (H : run_nohost_set.1
    = Raise (PyError (PyExc "TypeError" "<set object> is not JSON serializable" false)))
    by run.
  split; [run|]. split; [run|]. split; [exact H|]. rewrite H. discriminate.
Qed.

Lemma run_nohost_encodable : encodable Double.json_dumps w_nohost default_headers ∅.
Proof. exists "{}". run. Qed.

(** C3 (amended) on a call with no host set. *)
Lemma no_host_no_transport_witness :
  wire run_nohost.2 = wire w_nohost
  ∧ run_nohost.1 = Raise configuration_error ∧ logs run_nohost.2 = logs w_nohost.
Proof.
  destruct (no_host_no_transport Double.default_message Double.json_dumps
              Double.textwrap_fill Double.urljoin (Double.respond ok)
              client "get" "/v1/x" ∅ w_nohost default_headers
              run_nohost.1 run_nohost.2
              client_headers_nohost eq_refl eq_refl (surjective_pairing run_nohost))
    as [Hwire Hout].
  split; [exact Hwire | exact (Hout eq_refl run_nohost_encodable)].
Defined.

(** C4 on a call answered with status 500. *)
Lemma status_outside_range_raises_api_error_witness :
  run_500.1 = Raise (api_error server_error)
  ∧ logs run_500.2
    = (logs w_host
       ++ [LogDebug ("API " +:+ w_method (sent run_500) +:+ " Request: "
                     +:+ w_url (sent run_500))]
       ++ [LogInfo ("API Error: " +:+ format_d 500)])%list.
Proof.
  exact (status_outside_range_raises_api_error Double.default_message
           Double.json_dumps Double.textwrap_fill Double.urljoin
           (Double.respond server_error)
           client "get" "/v1/x" ∅ w_host default_headers
           run_500.1 run_500.2 (sent run_500) server_error
           client_headers_host (surjective_pairing run_500) run_500_sent
           (λ _ _ _ _, eq_refl) eq_refl).
Defined.

(** C4: the log of that call; a 404 gets the same error and no info line. *)
Example status_500_log :
  logs run_500.2
  = [LogDebug "API GET Request: https://api.example.com/v1/x";
     LogInfo "API Error: 500"].
Proof. run. Qed.

(** C6 on a call whose connection is refused. *)
Lemma transport_exception_raises_transport_error_witness :
  ∃ msg, run_refused.1 = Raise (transport_error msg)
         ∧ contains msg "ConnectionError" ∧ contains msg "Connection refused".
Proof.
  exact (transport_exception_raises_transport_error Double.default_message
           Double.json_dumps Double.textwrap_fill Double.urljoin
           (Double.fail refused)
           client "get" "/v1/x" ∅ w_host default_headers
           run_refused.1 run_refused.2 (sent run_refused) refused
           client_headers_host (surjective_pairing run_refused) run_refused_sent
           (λ _ _ _ _, eq_refl)).
Defined.


(** C7 on a deletion answered with status 204: the response itself. *)
Example status_204_returns_response :
  run_delete.1 = Return (RResponse no_content).
Proof. run. Qed.

(** C8 on an upload. *)
Lemma files_drop_content_type_else_json_body_witness :
  (∃ l, w_opts (sent run_upload) !! "headers" = Some (VDict l)
        ∧ ∀ hd, heap run_upload.2 !! l = Some hd → hd !! "Content-Type" = None)
  ∧ w_opts (sent run_upload) !! "data"
    = Some (data_of w_host {[ "files" := VObject "file" ]}).
Proof.
  exact (files_drop_content_type_else_json_body Double.default_message
           Double.json_dumps Double.textwrap_fill Double.urljoin
           (Double.respond ok)
           client "post" "/v1/upload" {[ "files" := VObject "file" ]}
           w_host default_headers
           run_upload.1 run_upload.2 (sent run_upload)
           client_headers_host (surjective_pairing run_upload) run_upload_sent).
Defined.

(** C8 on a call without files: the default data is sent as JSON text, and
    the headers keep their [Content-Type]. *)
Example json_body_of_default_data :
  w_opts (sent run_get) !! "data" = Some (VStr "{}")
  ∧ (heap run_get.2 !! headers_loc w_host) ≫= (.!! "Content-Type")
    = Some (VStr "application/json").
Proof. split; run. Qed.

(** C9 on a call with a relative URL. *)
Lemma url_resolved_against_host_witness :
  host_of client w_host = (if str_truthy (_api_host client) then _api_host client
                           else api_host (solvebio w_host))
  ∧ ∃ host, host_of client w_host = Some host
      ∧ w_url (sent run_get)
        = if startswith "/v1/x" host then "/v1/x" else Double.urljoin host "/v1/x".
Proof.
  exact (url_resolved_against_host Double.default_message
           Double.json_dumps Double.textwrap_fill Double.urljoin
           (Double.respond ok)
           client "get" "/v1/x" ∅ w_host default_headers
           run_get.1 run_get.2 (sent run_get)
           client_headers_host (surjective_pairing run_get) run_get_sent).
Defined.

(** C9: the URLs that are sent, for a relative URL and for one that starts
    with the host. *)
Example url_resolution_examples :
  w_url (sent run_get) = "https://api.example.com/v1/x"
  ∧ w_url (sent run_absolute) = "https://api.example.com/v1/x".
Proof. split; run. Qed.

(** C5 on the three cases of the specification. *)
Example credential_precedence_examples :
  SolveTokenAuth.__init__ None
    (mkWorld ∅ (mkConfig (Some "K") None) (CredsTuple [Some "u"; Some "S"]) [] [])
    = Some "K"
  ∧ SolveTokenAuth.__init__ (Some "E")
      (mkWorld ∅ (mkConfig (Some "K") None) CredsNone [] []) = Some "E"
  ∧ SolveTokenAuth.__init__ None
      (mkWorld ∅ (mkConfig None None)
         (CredsRaise (PyExc "IOError" "No such file" false)) [] []) = None
  ∧ SolveTokenAuth.__init__ None
      (mkWorld ∅ (mkConfig None None) (CredsTuple [Some "u"; Some "S"]) [] [])
    = Some "S".
Proof. repeat split. Qed.

(** ** The further properties on concrete calls *)

Lemma caller_dict_in_heap : heap w_caller !! caller_headers = Some caller_dict.
Proof. exact eq_refl. Qed.

Lemma run_html_sent : wire run_html.2 = (wire w_host ++ [sent run_html])%list.
Proof. run. Qed.

Lemma run_get_params_sent :
  wire run_get_params.2 = (wire w_host ++ [sent run_get_params])%list.
Proof. run. Qed.

Lemma run_post_sent : wire run_post.2 = (wire w_host ++ [sent run_post])%list.
Proof. run. Qed.

Lemma caller_upload_headers :
  ({[ "headers" := VDict caller_headers; "files" := VObject "file" ]}
     : gmap string value) !! "headers" ≠ Some (VDict (_headers client)).
Proof. intros H. vm_compute in H. discriminate H. Qed.

(** X2 on a call without keyword arguments. *)
Lemma request_trace_witness :
  (wire run_get.2 = wire w_host ∧ logs run_get.2 = logs w_host
   ∧ ∃ e, run_get.1 = Raise e)
  ∨ ∃ c rest,
      wire run_get.2 = (wire w_host ++ [c])%list
      ∧ w_method c = upper "get"
      ∧ logs run_get.2
        = (logs w_host ++ LogDebug ("API " +:+ upper "get" +:+ " Request: "
                                    +:+ w_url c) :: rest)%list
      ∧ (length rest ≤ 1)%nat.
Proof.
  exact (request_trace Double.default_message Double.json_dumps
           Double.textwrap_fill Double.urljoin (Double.respond ok)
           client "get" "/v1/x" ∅ w_host default_headers run_get.1 run_get.2
           client_headers_host (surjective_pairing run_get)).
Defined.

(** X3 on a call without keyword arguments. *)
Lemma request_reaches_transport_iff_witness :
  (∃ c, wire run_get.2 = (wire w_host ++ [c])%list)
  ↔ (∅ : gmap string value) !! "raw" = None
    ∧ encodable Double.json_dumps w_host default_headers ∅
    ∧ str_truthy (host_of client w_host) = true.
Proof.
  exact (request_reaches_transport_iff Double.default_message Double.json_dumps
           Double.textwrap_fill Double.urljoin (Double.respond ok)
           client "get" "/v1/x" ∅ w_host default_headers run_get.1 run_get.2
           client_headers_host (surjective_pairing run_get)).
Defined.


(** X5 on an upload that passes the caller's dictionary: the client's
    default headers are what they were. *)
Lemma request_preserves_other_dictionaries_witness :
  heap run_caller_upload.2 !! _headers client = Some default_headers.
Proof.
  exact (request_preserves_other_dictionaries Double.default_message
           Double.json_dumps Double.textwrap_fill Double.urljoin
           (Double.respond ok)
           client "post" "/v1/upload"
           {[ "headers" := VDict caller_headers; "files" := VObject "file" ]}
           w_caller default_headers run_caller_upload.1 run_caller_upload.2
           (_headers client) default_headers
           client_headers_caller (surjective_pairing run_caller_upload)
           client_headers_caller caller_upload_headers).
Defined.

(** X6 on the same upload: the caller's dictionary lost its
    [Content-Type]. *)
Lemma upload_pops_content_type_of_caller_headers_witness :
  heap run_caller_upload.2 !! caller_headers
  = Some (delete "Content-Type" caller_dict).
Proof.
  exact (upload_pops_content_type_of_caller_headers Double.default_message
           Double.json_dumps Double.textwrap_fill Double.urljoin
           (Double.respond ok)
           client "post" "/v1/upload"
           {[ "headers" := VDict caller_headers; "files" := VObject "file" ]}
           w_caller default_headers run_caller_upload.1 run_caller_upload.2
           caller_headers caller_dict
           client_headers_caller (surjective_pairing run_caller_upload)
           eq_refl caller_dict_in_heap eq_refl).
Defined.

(** X7 on a call answered with a page that is not JSON. *)
Lemma undecodable_body_raises_decoder_exception_witness :
  run_html.1
  = Raise (PyError (PyExc "ValueError" "No JSON object could be decoded" false))
  ∧ logs run_html.2
    = (logs w_host ++ [LogDebug ("API " +:+ w_method (sent run_html)
                                 +:+ " Request: " +:+ w_url (sent run_html))])%list.
Proof.
  exact (undecodable_body_raises_decoder_exception Double.default_message
           Double.json_dumps Double.textwrap_fill Double.urljoin
           (Double.respond html)
           client "get" "/v1/x" ∅ w_host default_headers
           run_html.1 run_html.2 (sent run_html) html
           (PyExc "ValueError" "No JSON object could be decoded" false)
           client_headers_host (surjective_pairing run_html) run_html_sent
           (λ _ _ _ _, eq_refl) eq_refl eq_refl eq_refl).
Defined.

(** X8 on a call without keyword arguments. *)
Lemma default_auth_from_process_settings_witness :
  w_opts (sent run_get) !! "auth" = Some (VAuth (SolveTokenAuth._get_api_key w_host))
  ∧ SolveTokenAuth._get_api_key w_host
    = (if str_truthy (api_key (solvebio w_host)) then api_key (solvebio w_host)
       else match credentials w_host with
            | CredsTuple (_ :: second :: _) => second
            | _ => None
            end).
Proof.
  exact (default_auth_from_process_settings Double.default_message
           Double.json_dumps Double.textwrap_fill Double.urljoin
           (Double.respond ok)
           client "get" "/v1/x" ∅ w_host default_headers
           run_get.1 run_get.2 (sent run_get)
           client_headers_host (surjective_pairing run_get) run_get_sent eq_refl).
Defined.

(** X9 on [get('/v1/x', 'limit=1')]. *)
Lemma get_sends_params_witness :
  w_method (sent run_get_params) = "GET"
  ∧ w_opts (sent run_get_params) !! "params" = Some (VStr "limit=1")
  ∧ (∅ : gmap string value) !! "params" = None
  ∧ (∅ : gmap string value) !! "url" = None
  ∧ (∅ : gmap string value) !! "method" = None.
Proof.
  exact (get_sends_params Double.default_message
           Double.json_dumps Double.textwrap_fill Double.urljoin
           (Double.respond ok)
           client "/v1/x" (VStr "limit=1") ∅ w_host default_headers
           run_get_params.1 run_get_params.2 (sent run_get_params)
           client_headers_host (surjective_pairing run_get_params)
           run_get_params_sent).
Defined.

(** X10 on [post('/v1/x', 'hello')]. *)
Lemma post_sends_data_witness :
  w_method (sent run_post) = "POST"
  ∧ ∃ s, Double.json_dumps (opts_heap w_host default_headers) (VStr "hello") = inr s
         ∧ w_opts (sent run_post) !! "data" = Some (VStr s).
Proof.
  exact (post_sends_data Double.default_message
           Double.json_dumps Double.textwrap_fill Double.urljoin
           (Double.respond ok)
           client "/v1/x" (VStr "hello") ∅ w_host default_headers
           run_post.1 run_post.2 (sent run_post)
           client_headers_host (surjective_pairing run_post) run_post_sent).
Defined.

(** [get] with a keyword that names one of its own parameters is refused
    before anything is sent. *)
Example get_refuses_params_keyword :
  (Double.get (Double.respond ok) client "/v1/x" (VStr "limit=1")
     {[ "params" := VStr "limit=2" ]} w_host)
  = (Raise (PyError (PyExc "TypeError"
       "get() got multiple values for keyword argument 'params'" false)), w_host).
Proof. exact eq_refl. Qed.
